(** * The Reshuffle executor node (src/backend/executor/nodeReshuffle.c)

    A shallow embedding of [EvalHashSegID], [ExecReshuffle],
    [ExecInitReshuffle] and [ExecReScanReshuffle], and the properties of the
    segment router that follow from the code.

    Conventions of the embedding.
    - C [int] values are integers of [Z]; an addition or subtraction whose
      result leaves the 32-bit range is undefined behaviour and ends the
      computation with [Undefined].
    - A [TupleTableSlot *] is a pointer into a store of slots.  The child
      node owns the slots, the router writes through the pointer and keeps a
      copy of the pointer in [savedSlot].
    - [Assert] is compiled only when [USE_ASSERT_CHECKING] is defined; the
      build is a field of the environment.
    - An [AttrNumber] is an [int16]: the [int] of a list cell stored in an
      [AttrNumber] variable keeps its low 16 bits ([to_int16]).
    - What the included headers declare and this file does not define (the
      DML action codes, the Datum conversions, the cdbhash primitive,
      [random]) is a parameter of the development. *)

From Stdlib Require Import ZArith Lia List Sorted.
From stdpp Require Import base option list gmap.

Open Scope Z_scope.

(** ** Outcomes of a call *)

Inductive result (A : Type) : Type :=
| Ok (a : A)
| AssertFailed
| ElogError (segid : Z)
| Undefined
| Diverges.

Arguments Ok {A} a.
Arguments AssertFailed {A}.
Arguments ElogError {A} segid.
Arguments Undefined {A}.
Arguments Diverges {A}.

#[global] Instance result_ret : MRet result := fun A a => Ok a.

#[global] Instance result_bind : MBind result := fun A B f m =>
  match m with
  | Ok a => f a
  | AssertFailed => AssertFailed
  | ElogError s => ElogError s
  | Undefined => Undefined
  | Diverges => Diverges
  end.

Definition is_Ok {A} (r : result A) : bool :=
  match r with Ok _ => true | _ => false end.

(** ** C integers *)

Definition INT_MAX : Z := 2147483647.
Definition INT_MIN : Z := -2147483648.

Definition in_int (z : Z) : bool := (INT_MIN <=? z) && (z <=? INT_MAX).

(** [a + b] and [a - b] on [int]. *)
Definition int_add (a b : Z) : result Z :=
  if in_int (a + b) then Ok (a + b) else Undefined.

Definition int_sub (a b : Z) : result Z :=
  if in_int (a - b) then Ok (a - b) else Undefined.

(** Conversion of a wider integer to [int32]: the low 32 bits, signed. *)
Definition to_int32 (z : Z) : Z := (z + 2147483648) mod 4294967296 - 2147483648.

(** Conversion of an [int] to [int16], the type of [AttrNumber]: the low 16
    bits, signed. *)
Definition to_int16 (z : Z) : Z := (z + 32768) mod 65536 - 32768.

(** [a % b] on [long]: truncated remainder, undefined for a zero divisor. *)
Definition long_rem (a b : Z) : result Z :=
  if b =? 0 then Undefined else Ok (Z.rem a b).

(** ** Declarations taken from the headers *)

Definition Datum := Z.
Definition Oid := Z.
Definition AttrNumber := Z.

Inductive GpPolicyType :=
| POLICYTYPE_PARTITIONED
| POLICYTYPE_ENTRY
| POLICYTYPE_REPLICATED.

#[global] Instance GpPolicyType_eq_dec : EqDecision GpPolicyType.
Proof. solve_decision. Defined.

(** postgres.h and the DML action codes. *)
Class Headers := {
  DML_INSERT : Z;
  DML_DELETE : Z;
  DatumGetInt32 : Datum -> Z;
  Int32GetDatum : Z -> Datum
}.

Class HeadersOk `{Headers} : Prop := {
  dml_distinct : DML_INSERT <> DML_DELETE;
  datum_int32 : forall x, in_int x = true -> DatumGetInt32 (Int32GetDatum x) = x
}.

(** cdb/cdbhash.h: the hash context and its four operations.  In C the
    context is updated in place through [CdbHash *]; here each operation
    returns the updated context. *)
Class CdbHashApi := {
  CdbHash : Type;
  makeCdbHash : Z -> Z -> list Oid -> CdbHash;
  cdbhashinit : CdbHash -> CdbHash;
  cdbhash : CdbHash -> Z -> Datum -> bool -> CdbHash;
  cdbhashreduce : CdbHash -> Z;
  numsegs : CdbHash -> Z
}.

(** The contract of the primitive: the context stays bound to the segment
    count it was made for, and the reduction is a segment of that count. *)
Class CdbHashOk `{CdbHashApi} : Prop := {
  numsegs_make : forall n natts oids, numsegs (makeCdbHash n natts oids) = n;
  numsegs_init : forall h, numsegs (cdbhashinit h) = numsegs h;
  numsegs_hash : forall h i v b, numsegs (cdbhash h i v b) = numsegs h;
  reduce_range : forall h, 0 < numsegs h -> 0 <= cdbhashreduce h < numsegs h
}.

(** stdlib.h [random]: a non-negative [long] below 2^31. *)
Class RandomApi := {
  RandState : Type;
  random : RandState -> Z * RandState
}.

Class RandomOk `{RandomApi} : Prop := {
  random_range : forall s, 0 <= fst (random s) < 2147483648
}.

(** ** Slots and the store *)

Record TupleTableSlot := mkSlot {
  tts_values : list Datum;
  tts_isnull : list bool
}.

Definition slotptr := positive.

(** [a[i]] for a C array held in a list. *)
Definition array_get {A} (a : list A) (i : Z) : result A :=
  if 0 <=? i then
    match a !! Z.to_nat i with
    | Some x => Ok x
    | None => Undefined
    end
  else Undefined.

(** [a[i] = x]. *)
Definition array_set {A} (a : list A) (i : Z) (x : A) : result (list A) :=
  if (0 <=? i) && (i <? Z.of_nat (length a))
  then Ok (<[Z.to_nat i := x]> a)
  else Undefined.

(** ** Plans, node state, environment *)

(** The Reshuffle plan node.  [policyAttrs] is NIL for a table without
    distribution keys; its cells are [int]s, which the code reads with
    [lfirst_int] into an [AttrNumber] variable.  [targetlist] holds, for
    each entry of
    [plan.targetlist], the type [exprType] gives for its expression. *)
Record Reshuffle := mkReshuffle {
  oldSegs : Z;
  ptype : GpPolicyType;
  policyAttrs : list AttrNumber;
  tupleSegIdx : AttrNumber;
  targetlist : list Oid
}.

Record SplitUpdate := mkSplitUpdate {
  actionColIdx : AttrNumber
}.

(** The child node: its plan, the rows it produces (each stored into the
    slot it names when it is pulled), the rows still to come, and the flag
    that makes [ExecProcNode] re-scan first ([chgParam != NULL]). *)
Record PlanState := mkPlanState {
  plan : SplitUpdate;
  outer_all : list (slotptr * TupleTableSlot);
  outer_pending : list (slotptr * TupleTableSlot);
  chgParam : bool
}.

(** [GpIdentity], [getgpsegmentCount()], [IS_QUERY_DISPATCHER()] and the
    build. *)
Record Env := mkEnv {
  segindex : Z;
  gpsegmentCount : Z;
  is_query_dispatcher : bool;
  USE_ASSERT_CHECKING : bool
}.

Definition INIT_IDX : Z := 0.

(** The same cluster and build, seen from segment [self]. *)
Definition env_at (e : Env) (self : Z) : Env :=
  mkEnv self (gpsegmentCount e) (is_query_dispatcher e) (USE_ASSERT_CHECKING e).

Section Router.

Context `{Headers} `{CdbHashApi} `{RandomApi}.

Variable env : Env.

Record ReshuffleState := mkReshuffleState {
  ps_plan : Reshuffle;
  lefttree : PlanState;
  destList : list Z;
  newTargetIdx : Z;
  savedSlot : option slotptr;
  node_cdbhash : CdbHash;
  node_oldcdbhash : option CdbHash
}.

(** The executor as the node sees it: the slot store, the state of
    [random], and the node. *)
Record World := mkWorld {
  slots : gmap slotptr TupleTableSlot;
  rand : RandState;
  node : ReshuffleState
}.

(** ** The collaborators the node calls *)

Definition Assert (c : bool) : result unit :=
  if USE_ASSERT_CHECKING env && negb c then AssertFailed else Ok tt.

(** [ExecReScan] of the child: it starts over. *)
Definition ExecReScan (o : PlanState) : PlanState :=
  mkPlanState (plan o) (outer_all o) (outer_all o) false.

(** [ExecProcNode] of the child: a pending re-scan is done first; the next
    row is stored into its slot and the slot returned; [None] is a slot for
    which [TupIsNull] holds. *)
Definition ExecProcNode (o : PlanState) (hp : gmap slotptr TupleTableSlot)
  : PlanState * gmap slotptr TupleTableSlot * option slotptr :=
  let o := if chgParam o then ExecReScan o else o in
  match outer_pending o with
  | [] => (o, hp, None)
  | (p, c) :: rest =>
      (mkPlanState (plan o) (outer_all o) rest false, <[p := c]> hp, Some p)
  end.

(** [slot_getallattrs] with [slot_get_values] / [slot_get_isnull]: the
    contents behind a slot pointer. *)
Definition slot_deref (hp : gmap slotptr TupleTableSlot) (slot : option slotptr)
  : result TupleTableSlot :=
  match slot with
  | Some p => match hp !! p with Some s => Ok s | None => Undefined end
  | None => Undefined
  end.

(** [values[idx] = v] through the slot pointer. *)
Definition slot_store (hp : gmap slotptr TupleTableSlot) (slot : option slotptr)
    (idx : Z) (v : Datum) : result (gmap slotptr TupleTableSlot) :=
  match slot with
  | Some p =>
      s ← slot_deref hp slot;
      vals ← array_set (tts_values s) idx v;
      Ok (<[p := mkSlot vals (tts_isnull s)]> hp)
  | None => Undefined
  end.

(** [list_nth] / [list_nth_int] of pg_list.h: the range is asserted, and
    not checked otherwise. *)
Definition list_nth {A} (l : list A) (n : Z) : result A :=
  match (if 0 <=? n then l !! Z.to_nat n else None) with
  | Some x => Ok x
  | None => if USE_ASSERT_CHECKING env then AssertFailed else Undefined
  end.

Definition list_length {A} (l : list A) : Z := Z.of_nat (length l).

(** ** EvalHashSegID (lines 140-163) *)

(** The [foreach] loop: [i] counts the attributes folded so far.  Line 154,
    [AttrNumber attidx = lfirst_int(lc)], converts the cell to [int16]. *)
Fixpoint EvalHashSegID_loop (values : list Datum) (nulls : list bool)
    (lc : list AttrNumber) (i : Z) (h : CdbHash) : result CdbHash :=
  match lc with
  | [] => Ok h
  | lfirst_int :: lc' =>
      let attidx := to_int16 lfirst_int in
      v ← array_get values (attidx - 1);
      b ← array_get nulls (attidx - 1);
      EvalHashSegID_loop values nulls lc' (i + 1) (cdbhash h (i + 1) v b)
  end.

Definition EvalHashSegID (values : list Datum) (nulls : list bool)
    (policyAttrs : list AttrNumber) (h : CdbHash) : result (CdbHash * Z) :=
  _ ← Assert (negb (bool_decide (policyAttrs = [])));
  let h := cdbhashinit h in
  h ← EvalHashSegID_loop values nulls policyAttrs 0 h;
  let newSeg := cdbhashreduce h in
  Ok (h, to_int32 newSeg).

(** ** ExecReshuffle (lines 187-346) *)

Definition with_lefttree (st : ReshuffleState) (o : PlanState) : ReshuffleState :=
  mkReshuffleState (ps_plan st) o (destList st) (newTargetIdx st)
    (savedSlot st) (node_cdbhash st) (node_oldcdbhash st).

Definition with_cdbhash (st : ReshuffleState) (h : CdbHash) : ReshuffleState :=
  mkReshuffleState (ps_plan st) (lefttree st) (destList st) (newTargetIdx st)
    (savedSlot st) h (node_oldcdbhash st).

Definition with_oldcdbhash (st : ReshuffleState) (h : CdbHash) : ReshuffleState :=
  mkReshuffleState (ps_plan st) (lefttree st) (destList st) (newTargetIdx st)
    (savedSlot st) (node_cdbhash st) (Some h).

Definition with_savedSlot (st : ReshuffleState) (s : option slotptr) : ReshuffleState :=
  mkReshuffleState (ps_plan st) (lefttree st) (destList st) (newTargetIdx st)
    s (node_cdbhash st) (node_oldcdbhash st).

Definition with_newTargetIdx (st : ReshuffleState) (i : Z) : ReshuffleState :=
  mkReshuffleState (ps_plan st) (lefttree st) (destList st) i
    (savedSlot st) (node_cdbhash st) (node_oldcdbhash st).

(** The POLICYTYPE_PARTITIONED branch, lines 212-280. *)
Definition ExecReshuffle_partitioned (w : World) : result (World * option slotptr) :=
  let reshuffle := ps_plan (node w) in
  let splitUpdate := plan (lefttree (node w)) in
  let '(outerNode, hp, slot) := ExecProcNode (lefttree (node w)) (slots w) in
  let st := with_lefttree (node w) outerNode in
  match slot with
  | None => Ok (mkWorld hp (rand w) st, None)
  | Some _ =>
      s ← slot_deref hp slot;
      let values := tts_values s in
      let nulls := tts_isnull s in
      a ← array_get values (actionColIdx splitUpdate - 1);
      let dmlAction := DatumGetInt32 a in
      _ ← Assert ((dmlAction =? DML_INSERT) || (dmlAction =? DML_DELETE));
      w1 ←
        (if DML_INSERT =? dmlAction then
           if negb (bool_decide (policyAttrs reshuffle = [])) then
             '(h, seg) ← EvalHashSegID values nulls (policyAttrs reshuffle)
                           (node_cdbhash st);
             hp' ← slot_store hp slot (tupleSegIdx reshuffle - 1) (Int32GetDatum seg);
             Ok (mkWorld hp' (rand w) (with_cdbhash st h))
           else
             let newSegs := gpsegmentCount env in
             let oldSegs := oldSegs reshuffle in
             _ ← Assert (newSegs >? oldSegs);
             let '(r, rnd) := random (rand w) in
             d ← int_sub newSegs oldSegs;
             m ← long_rem r d;
             hp' ← slot_store hp slot (tupleSegIdx reshuffle - 1)
                     (Int32GetDatum (to_int32 (oldSegs + m)));
             Ok (mkWorld hp' rnd st)
         else if USE_ASSERT_CHECKING env then
           if negb (bool_decide (policyAttrs reshuffle = [])) then
             oldSegID ← array_get values (tupleSegIdx reshuffle - 1);
             oh ← (match node_oldcdbhash st with
                   | Some oh => Ok oh
                   | None => Undefined
                   end);
             '(oh', seg) ← EvalHashSegID values nulls (policyAttrs reshuffle) oh;
             let newSegID := Int32GetDatum seg in
             _ ← Assert (oldSegID =? newSegID);
             Ok (mkWorld hp (rand w) (with_oldcdbhash st oh'))
           else Ok (mkWorld hp (rand w) st)
         else Ok (mkWorld hp (rand w) st));
      _ ← (if USE_ASSERT_CHECKING env then
             s1 ← slot_deref (slots w1) slot;
             v ← array_get (tts_values s1) (tupleSegIdx reshuffle - 1);
             if DatumGetInt32 v >=? gpsegmentCount env
             then ElogError (DatumGetInt32 v)
             else Ok tt
           else Ok tt);
      Ok (w1, slot)
  end.

(** The [while(1)] loop of the POLICYTYPE_REPLICATED branch, lines 294-337.
    One unit of fuel pays for one iteration; [inl] is the [return NULL] of
    line 300. *)
Fixpoint ExecReshuffle_loop (fuel : nat) (w : World) : result (World * option slotptr) :=
  match fuel with
  | O => Diverges
  | S fuel' =>
      let reshuffle := ps_plan (node w) in
      let splitUpdate := plan (lefttree (node w)) in
      fetched ←
        (if newTargetIdx (node w) =? INIT_IDX then
           let '(outerNode, hp, slot) :=
             ExecProcNode (lefttree (node w)) (slots w) in
           let st := with_lefttree (node w) outerNode in
           match slot with
           | None => Ok (inl (mkWorld hp (rand w) st))
           | Some _ => Ok (inr (mkWorld hp (rand w) (with_savedSlot st slot), slot))
           end
         else
           let slot := savedSlot (node w) in
           _ ← Assert (bool_decide (is_Some (slot ≫= fun p => slots w !! p)));
           Ok (inr (w, slot)));
      match fetched with
      | inl w0 => Ok (w0, None)
      | inr (w1, slot) =>
          s ← slot_deref (slots w1) slot;
          let values := tts_values s in
          a ← array_get values (actionColIdx splitUpdate - 1);
          let dmlAction := DatumGetInt32 a in
          _ ← Assert ((dmlAction =? DML_INSERT) || (dmlAction =? DML_DELETE));
          if dmlAction =? DML_DELETE then ExecReshuffle_loop fuel' w1
          else
            segIdx ← list_nth (destList (node w1)) (newTargetIdx (node w1));
            let idx := newTargetIdx (node w1) + 1 in
            let idx := if idx >=? list_length (destList (node w1))
                       then INIT_IDX else idx in
            hp' ← slot_store (slots w1) slot (tupleSegIdx reshuffle - 1)
                    (Int32GetDatum segIdx);
            Ok (mkWorld hp' (rand w1) (with_newTargetIdx (node w1) idx), slot)
      end
  end.

(** Iterations the loop can need: every iteration that does not return
    consumes a row of the child. *)
Definition loop_fuel (w : World) : nat :=
  S (length (outer_all (lefttree (node w)))
     + length (outer_pending (lefttree (node w)))).

(** The call returns the new world and the slot, [None] for NULL.  The
    assertions of lines 201-202 (the child exists and runs a SplitUpdate)
    hold by the type of [lefttree]. *)
Definition ExecReshuffle (w : World) : result (World * option slotptr) :=
  let reshuffle := ps_plan (node w) in
  let splitUpdate := plan (lefttree (node w)) in
  _ ← Assert (actionColIdx splitUpdate >? 0);
  (* New added segments have no data *)
  if segindex env >=? oldSegs reshuffle then Ok (w, None)
  else
    match ptype reshuffle with
    | POLICYTYPE_PARTITIONED => ExecReshuffle_partitioned w
    | POLICYTYPE_REPLICATED =>
        s ← int_add (segindex env) (oldSegs reshuffle);
        if s >=? gpsegmentCount env then Ok (w, None)
        else ExecReshuffle_loop (loop_fuel w) w
    | POLICYTYPE_ENTRY =>
        (* Impossible case *)
        _ ← Assert false;
        Ok (w, None)
    end.

(** ** ExecInitReshuffle (lines 353-444) *)

(** The [while (segIdx < getgpsegmentCount())] loop of lines 415-420. *)
Fixpoint destList_loop (fuel : nat) (node : Reshuffle) (segIdx : Z)
    (destList : list Z) : result (list Z) :=
  if segIdx <? gpsegmentCount env then
    match fuel with
    | O => Diverges
    | S fuel' =>
        let destList := destList ++ [segIdx] in
        segIdx ← int_add segIdx (oldSegs node);
        destList_loop fuel' node segIdx destList
    end
  else Ok destList.

(** Lines 408-422: setup of the destination segment ID list. *)
Definition init_destList (node : Reshuffle) : result (list Z) :=
  if negb (is_query_dispatcher env) then
    if segindex env <? oldSegs node then
      s ← int_add (segindex env) (oldSegs node);
      if s <? gpsegmentCount env then
        destList_loop (Z.to_nat (gpsegmentCount env - s)) node s []
      else Ok []
    else Ok []
  else Ok [].

(** Lines 425-434: the type of every key column, from the target list.  Line
    429, [AttrNumber attidx = lfirst_int(lc)], converts the cell to
    [int16]. *)
Fixpoint init_typeoids (node : Reshuffle) (lc : list AttrNumber) : result (list Oid) :=
  match lc with
  | [] => Ok []
  | lfirst_int :: lc' =>
      let attidx := to_int16 lfirst_int in
      t ← list_nth (targetlist node) (attidx - 1);
      ts ← init_typeoids node lc';
      Ok (t :: ts)
  end.

(** [outer] is the state [ExecInitNode] returns for the child.  The second
    hash context exists in assertion-enabled builds only. *)
Definition ExecInitReshuffle (node : Reshuffle) (outer : PlanState)
  : result ReshuffleState :=
  destList ← init_destList node;
  typeoids ← init_typeoids node (policyAttrs node);
  let h := makeCdbHash (gpsegmentCount env) (list_length (policyAttrs node)) typeoids in
  let oh := if USE_ASSERT_CHECKING env
            then Some (makeCdbHash (oldSegs node) (list_length (policyAttrs node)) typeoids)
            else None in
  Ok (mkReshuffleState node outer destList INIT_IDX None h oh).

(** ** ExecReScanReshuffle (lines 477-489)

    The child is re-scanned now unless its [chgParam] is set, in which case
    its next [ExecProcNode] does it. *)

Definition ExecReScanReshuffle (w : World) : World :=
  if negb (chgParam (lefttree (node w)))
  then mkWorld (slots w) (rand w)
         (with_lefttree (node w) (ExecReScan (lefttree (node w))))
  else w.

(** ** The consumer *)

(** [n] successive output calls.  Each call is recorded with the contents of
    the slot it returned, read when it returned ([None] for NULL). *)
Fixpoint run_calls (n : nat) (w : World)
  : result (list (option TupleTableSlot) * World) :=
  match n with
  | O => Ok ([], w)
  | S n' =>
      '(w1, slot) ← ExecReshuffle w;
      let out := slot ≫= fun p => slots w1 !! p in
      '(outs, w2) ← run_calls n' w1;
      Ok (out :: outs, w2)
  end.

(** ** The hash routing contract, in the words of the specification

    The (value, null flag) pairs of the configured key columns of a row, in
    the order of the key list; an entry of the key list names the column
    whose attribute number it is as an [AttrNumber]. *)
Fixpoint key_columns (values : list Datum) (nulls : list bool)
    (attrs : list AttrNumber) : option (list (Datum * bool)) :=
  match attrs with
  | [] => Some []
  | key :: attrs' =>
      let attidx := to_int16 key in
      if 1 <=? attidx then
        v ← values !! Z.to_nat (attidx - 1);
        b ← nulls !! Z.to_nat (attidx - 1);
        ks ← key_columns values nulls attrs';
        Some ((v, b) :: ks)
      else None
  end.

(** Fold the pairs into the context, each with its position, from [pos]
    on. *)
Fixpoint spec_fold (h : CdbHash) (pos : Z) (keys : list (Datum * bool)) : CdbHash :=
  match keys with
  | [] => h
  | (v, b) :: keys' => spec_fold (cdbhash h pos v b) (pos + 1) keys'
  end.

(** Reset the context, fold the key columns with positions counted from 1,
    reduce. *)
Definition spec_hash_reduction (h : CdbHash) (keys : list (Datum * bool)) : Z :=
  cdbhashreduce (spec_fold (cdbhashinit h) 1 keys).

(** ** The worlds an execution goes through *)

Inductive reachable : World -> Prop :=
| reach_init (nd : Reshuffle) (outer : PlanState) (st : ReshuffleState)
    (hp : gmap slotptr TupleTableSlot) (rnd : RandState) :
    ExecInitReshuffle nd outer = Ok st -> reachable (mkWorld hp rnd st)
| reach_call (w w' : World) (slot : option slotptr) :
    reachable w -> ExecReshuffle w = Ok (w', slot) -> reachable w'
| reach_rescan (w : World) :
    reachable w -> reachable (ExecReScanReshuffle w).

(** What a call never changes: the plans, the destination list, and the
    segment counts the two hash contexts are bound to. *)
Definition same_setup (w w' : World) : Prop :=
  ps_plan (node w') = ps_plan (node w)
  /\ plan (lefttree (node w')) = plan (lefttree (node w))
  /\ destList (node w') = destList (node w)
  /\ numsegs (node_cdbhash (node w')) = numsegs (node_cdbhash (node w))
  /\ numsegs <$> node_oldcdbhash (node w') = numsegs <$> node_oldcdbhash (node w).

(** ** The replicated fan-out, in terms of rows

    The row [c] with [d] written into column [idx]. *)
Definition set_segid (idx : AttrNumber) (c : TupleTableSlot) (d : Z) : TupleTableSlot :=
  mkSlot (<[Z.to_nat (idx - 1) := Int32GetDatum d]> (tts_values c)) (tts_isnull c).

(** The action column of [c] holds [tag]. *)
Definition tagged (su : SplitUpdate) (c : TupleTableSlot) (tag : Z) : Prop :=
  exists a, array_get (tts_values c) (actionColIdx su - 1) = Ok a
            /\ DatumGetInt32 a = tag.

Definition is_delete (su : SplitUpdate) (c : TupleTableSlot) : bool :=
  match array_get (tts_values c) (actionColIdx su - 1) with
  | Ok a => DatumGetInt32 a =? DML_DELETE
  | _ => false
  end.

(** A row the replicated branch can route: it carries one of the two
    action tags, and it has the segment column. *)
Definition routable (rs : Reshuffle) (su : SplitUpdate) (c : TupleTableSlot) : Prop :=
  (tagged su c DML_INSERT \/ tagged su c DML_DELETE)
  /\ exists v, array_get (tts_values c) (tupleSegIdx rs - 1) = Ok v.

(** What the consumer is to see for a stream of rows: nothing for a Delete
    row, and for any other row one copy per destination, in the order of
    the destination list. *)
Definition replicated_outputs (rs : Reshuffle) (su : SplitUpdate) (dl : list Z)
    (rows : list (slotptr * TupleTableSlot)) : list TupleTableSlot :=
  flat_map (fun pc => if is_delete su (snd pc) then []
                      else map (set_segid (tupleSegIdx rs) (snd pc)) dl) rows.

(** The cursor after one more destination has been handed out. *)
Definition next_idx (dl : list Z) (k : nat) : Z :=
  if Z.of_nat k + 1 >=? list_length dl then INIT_IDX else Z.of_nat k + 1.

(** The states of the replicated branch between two calls, with the outputs
    [rem] still to come: either the cursor is at its initial value and the
    next call pulls, or the node is in the middle of the fan-out of the row
    [c] held in the saved slot. *)
Definition replicated_state (rs : Reshuffle) (su : SplitUpdate) (dl : list Z)
    (w : World) (rem : list TupleTableSlot) : Prop :=
  ps_plan (node w) = rs
  /\ plan (lefttree (node w)) = su
  /\ destList (node w) = dl
  /\ chgParam (lefttree (node w)) = false
  /\ Forall (fun pc => routable rs su (snd pc)) (outer_pending (lefttree (node w)))
  /\ ((newTargetIdx (node w) = INIT_IDX
       /\ rem = replicated_outputs rs su dl (outer_pending (lefttree (node w))))
      \/ exists (k : nat) (p : slotptr) (c : TupleTableSlot) (d : Z),
           newTargetIdx (node w) = Z.of_nat (S k)
           /\ (S k < length dl)%nat
           /\ savedSlot (node w) = Some p
           /\ slots w !! p = Some (set_segid (tupleSegIdx rs) c d)
           /\ routable rs su c
           /\ is_delete su c = false
           /\ rem = map (set_segid (tupleSegIdx rs) c) (drop (S k) dl)
                    ++ replicated_outputs rs su dl (outer_pending (lefttree (node w)))).

(** What a call establishes: the output it owes, and the state for the
    rest. *)
Definition call_meets (rs : Reshuffle) (su : SplitUpdate) (dl : list Z)
    (rem : list TupleTableSlot) (w' : World) (slot : option slotptr) : Prop :=
  match rem with
  | [] => slot = None /\ replicated_state rs su dl w' []
  | x :: rem' =>
      (exists p, slot = Some p /\ slots w' !! p = Some x)
      /\ replicated_state rs su dl w' rem'
  end.

(** The node's first assertion on the plan (line 206, [actionColIdx > 0]):
    it constrains the plan in assertion-enabled builds only. *)
Definition plan_accepted (su : SplitUpdate) : Prop :=
  USE_ASSERT_CHECKING env = true -> actionColIdx su > 0.

(** The cursor is at its initial value, or it is inside the destination list
    and a slot is saved. *)
Definition cursor_in_list (st : ReshuffleState) : Prop :=
  newTargetIdx st = INIT_IDX
  \/ (0 < newTargetIdx st < list_length (destList st)
      /\ is_Some (savedSlot st)).

(** The cursor is inside the list and the saved slot holds a Delete-tagged
    row: the state in which an iteration of the loop changes nothing. *)
Definition saved_delete (w : World) : Prop :=
  newTargetIdx (node w) <> INIT_IDX
  /\ exists p c a,
       savedSlot (node w) = Some p
       /\ slots w !! p = Some c
       /\ array_get (tts_values c) (actionColIdx (plan (lefttree (node w))) - 1) = Ok a
       /\ DatumGetInt32 a = DML_DELETE.

(** The rows the child hands out from now on: all of them when a re-scan is
    pending. *)
Definition rows_to_come (o : PlanState) : list (slotptr * TupleTableSlot) :=
  if chgParam o then outer_all o else outer_pending o.

(** The key columns, by their attribute numbers as [AttrNumber]s, name
    entries of the target list. *)
Definition keys_in_targetlist (node : Reshuffle) : Prop :=
  Forall (fun key => 1 <= to_int16 key <= list_length (targetlist node))
         (policyAttrs node).

End Router.

(** ** A concrete instance of the parameters

    Action codes 1 (insert) and 0 (delete), a Datum that is the integer
    itself, a hash that sums the weighted key values, and a counter for
    [random]. *)
Module Sample.

#[local] Instance headers : Headers := {|
  DML_INSERT := 1;
  DML_DELETE := 0;
  DatumGetInt32 := to_int32;
  Int32GetDatum := fun x => x
|}.

#[local] Instance hash : CdbHashApi := {|
  CdbHash := Z * Z;
  makeCdbHash := fun n _ _ => (n, 0);
  cdbhashinit := fun h => (fst h, 0);
  cdbhash := fun h i v b => (fst h, snd h + i * (if b then 0 else v));
  cdbhashreduce := fun h => snd h mod fst h;
  numsegs := fst
|}.

#[local] Instance rng : RandomApi := {|
  RandState := Z;
  random := fun s => (s mod 2147483648, s + 1)
|}.

(** Columns: a key, the action, the segment id. *)
Definition row (action key seg : Z) : TupleTableSlot :=
  mkSlot [key; action; seg] [false; false; false].

Definition split : SplitUpdate := mkSplitUpdate 2.

Definition child (rows : list (slotptr * TupleTableSlot)) : PlanState :=
  mkPlanState split rows rows false.

Definition reshuffle_of (O : Z) (pt : GpPolicyType) (keys : list AttrNumber) : Reshuffle :=
  mkReshuffle O pt keys 3 [23; 23; 23].

(** Segment [self] of a cluster grown to 7 segments. *)
Definition env_of (self : Z) (checking : bool) : Env := mkEnv self 7 false checking.

(** The node as setup leaves it for a table that was on [O] segments. *)
Definition node_of (O : Z) (pt : GpPolicyType) (keys : list AttrNumber)
    (dl : list Z) (rows : list (slotptr * TupleTableSlot)) (checking : bool)
  : ReshuffleState :=
  mkReshuffleState (reshuffle_of O pt keys) (child rows) dl INIT_IDX None
    (7, 0) (if checking then Some (O, 0) else None).

Definition world_of (st : ReshuffleState) : World := mkWorld ∅ 0 st.

(** Three rows to insert, all produced in the child's one slot. *)
Definition three_inserts : list (slotptr * TupleTableSlot) :=
  [(1%positive, row 1 10 0); (1%positive, row 1 11 1); (1%positive, row 1 12 2)].

(** A row to delete, sitting on segment 2, and a row to insert. *)
Definition delete_insert : list (slotptr * TupleTableSlot) :=
  [(1%positive, row 0 10 2); (1%positive, row 1 10 2)].

(** A lone row to delete whose segment column names no segment. *)
Definition stray_delete : list (slotptr * TupleTableSlot) :=
  [(1%positive, row 0 10 9)].

(** Deletes around two inserts. *)
Definition mixed : list (slotptr * TupleTableSlot) :=
  [(1%positive, row 0 10 0); (1%positive, row 1 10 0);
   (1%positive, row 0 11 0); (1%positive, row 0 12 0);
   (1%positive, row 1 12 0)].

(** A row to delete that sits where its key hashes under 3 segments. *)
Definition consistent_delete : list (slotptr * TupleTableSlot) :=
  [(1%positive, row 0 10 1)].

(** A node of segment 0 between the copies of two rows, the first row of
    [three_inserts] consumed. *)
Definition world_after_first_row : World :=
  mkWorld ∅ 0
    (mkReshuffleState (reshuffle_of 3 POLICYTYPE_REPLICATED [])
       (mkPlanState split three_inserts (tail three_inserts) false)
       [3; 6] INIT_IDX (Some 1%positive) (7, 0) (Some (3, 0))).

(** A node whose cursor is inside the list while the saved slot holds a row
    to delete. *)
Definition world_saved_delete : World :=
  mkWorld (<[1%positive := row 0 10 0]> ∅) 0
    (mkReshuffleState (reshuffle_of 3 POLICYTYPE_REPLICATED [])
       (child three_inserts) [3; 6] 1 (Some 1%positive) (7, 0) (Some (3, 0))).

End Sample.

(** * Properties *)

Section Properties.
Context `{Headers} `{CdbHashApi} `{RandomApi}.
Variable env : Env.

Lemma Assert_true c : c = true -> Assert env c = Ok tt.
Proof. intros ->. unfold Assert. rewrite andb_false_r. reflexivity. Qed.

Lemma Assert_if c : (USE_ASSERT_CHECKING env = true -> c = true) -> Assert env c = Ok tt.
Proof.
  intros Hc. unfold Assert. destruct (USE_ASSERT_CHECKING env); [|reflexivity].
  rewrite Hc by reflexivity. reflexivity.
Qed.

Lemma plan_accepted_Assert su :
  plan_accepted env su -> Assert env (actionColIdx su >? 0) = Ok tt.
Proof.
  intros Ha. apply Assert_if. intros Hd. apply Z.gtb_lt. specialize (Ha Hd). lia.
Qed.

Lemma array_get_accepted {A} (a : list A) su x :
  array_get a (actionColIdx su - 1) = Ok x -> plan_accepted env su.
Proof.
  unfold array_get. destruct (Z.leb_spec 0 (actionColIdx su - 1)); [|discriminate].
  intros _ _. lia.
Qed.

Lemma Assert_production c : USE_ASSERT_CHECKING env = false -> Assert env c = Ok tt.
Proof. intros E. unfold Assert. rewrite E. reflexivity. Qed.

Lemma Assert_checked_false : USE_ASSERT_CHECKING env = true -> Assert env false = AssertFailed.
Proof. intros E. unfold Assert. rewrite E. reflexivity. Qed.

Lemma ExecReshuffle_new_segment (w : World) :
  plan_accepted env (plan (lefttree (node w))) ->
  segindex env >= oldSegs (ps_plan (node w)) ->
  ExecReshuffle env w = Ok (w, None).
Proof.
  intros Ha Hg. unfold ExecReshuffle.
  rewrite (plan_accepted_Assert _ Ha). simpl.
  replace (segindex env >=? oldSegs (ps_plan (node w))) with true
    by (symmetry; apply Z.geb_le; lia).
  reflexivity.
Qed.

Lemma run_calls_new_segment (w : World) (n : nat) :
  plan_accepted env (plan (lefttree (node w))) ->
  segindex env >= oldSegs (ps_plan (node w)) ->
  run_calls env n w = Ok (replicate n None, w).
Proof.
  intros Ha Hg. induction n as [|n IH]; [reflexivity|].
  simpl. rewrite ExecReshuffle_new_segment by assumption. simpl.
  rewrite IH. reflexivity.
Qed.

(** C2.  On a segment whose index is not below the old segment count, for
    every policy, every child and every state of the node, each of any
    number of output calls returns NULL and leaves the world as it was: no
    row is pulled from the child.  The plan is one the node accepts (its
    first assertion, [actionColIdx > 0], holds). *)
Theorem new_segment_no_output (w : World) (n : nat) :
  plan_accepted env (plan (lefttree (node w))) ->
  segindex env >= oldSegs (ps_plan (node w)) ->
  run_calls env n w = Ok (replicate n None, w)
  /\ ExecReshuffle env w = Ok (w, None).
Proof.
  intros Ha Hg. split; [apply run_calls_new_segment|apply ExecReshuffle_new_segment]; assumption.
Qed.

Lemma int_add_ok a b : INT_MIN <= a + b <= INT_MAX -> int_add a b = Ok (a + b).
Proof.
  intros Hr. unfold int_add, in_int.
  replace (INT_MIN <=? a + b) with true by (symmetry; apply Z.leb_le; lia).
  replace (a + b <=? INT_MAX) with true by (symmetry; apply Z.leb_le; lia).
  reflexivity.
Qed.

Lemma destList_loop_spec (nd : Reshuffle) (fuel : nat) : forall segIdx acc,
  1 <= oldSegs nd ->
  gpsegmentCount env + oldSegs nd <= INT_MAX ->
  INT_MIN <= segIdx ->
  gpsegmentCount env - segIdx <= Z.of_nat fuel ->
  exists l, destList_loop env fuel nd segIdx acc = Ok (acc ++ l)
    /\ StronglySorted Z.lt l
    /\ forall v, v ∈ l <->
         exists k, 0 <= k /\ v = segIdx + k * oldSegs nd /\ v < gpsegmentCount env.
Proof.
  induction fuel as [|fuel IH]; intros segIdx acc HO Hmax Hmin Hfuel.
  - exists []. simpl.
    replace (segIdx <? gpsegmentCount env) with false
      by (symmetry; apply Z.ltb_ge; lia).
    rewrite app_nil_r. split; [reflexivity|]. split; [constructor|].
    intros v; split; [intros Hv; apply elem_of_nil in Hv as []|]. intros (k & Hk & -> & Hv). nia.
  - simpl. destruct (Z.ltb_spec segIdx (gpsegmentCount env)) as [Hlt|Hge].
    + rewrite int_add_ok by lia. simpl.
      destruct (IH (segIdx + oldSegs nd) (acc ++ [segIdx])) as (l & El & Hs & Hin);
        try lia.
      exists (segIdx :: l). rewrite El, <- app_assoc. simpl.
      split; [reflexivity|]. split.
      * constructor; [assumption|]. apply Forall_forall. intros v Hv.
        apply Hin in Hv as (k & Hk & -> & _). nia.
      * intros v; split.
        -- intros [->|Hv]%elem_of_cons.
           ++ exists 0. lia.
           ++ apply Hin in Hv as (k & Hk & -> & Hv). exists (k + 1). lia.
        -- intros (k & Hk & -> & Hv).
           apply elem_of_cons.
           destruct (Z.eq_dec k 0) as [->|Hne]; [left; lia|].
           right. apply Hin. exists (k - 1). lia.
    + exists []. rewrite app_nil_r. split; [reflexivity|]. split; [constructor|].
      intros v; split; [intros Hv; apply elem_of_nil in Hv as []|]. intros (k & Hk & -> & Hv). nia.
Qed.

(** The list built at setup, for a segment of the cluster. *)
Lemma init_destList_spec (nd : Reshuffle) :
  is_query_dispatcher env = false ->
  0 <= segindex env < gpsegmentCount env ->
  gpsegmentCount env + oldSegs nd <= INT_MAX ->
  exists l, init_destList env nd = Ok l
    /\ (segindex env < oldSegs nd ->
          StronglySorted Z.lt l
          /\ forall v, v ∈ l <->
               exists k, 1 <= k /\ v = segindex env + k * oldSegs nd
                         /\ v < gpsegmentCount env)
    /\ (l <> [] -> segindex env < oldSegs nd
                   /\ segindex env + oldSegs nd < gpsegmentCount env).
Proof.
  intros Hqd Hself Hmax. unfold init_destList. rewrite Hqd. simpl.
  destruct (Z.ltb_spec (segindex env) (oldSegs nd)) as [Hlt|Hge].
  - assert (HI : INT_MIN <= segindex env + oldSegs nd <= INT_MAX)
      by (unfold INT_MIN, INT_MAX in *; lia).
    rewrite int_add_ok by exact HI. simpl.
    destruct (Z.ltb_spec (segindex env + oldSegs nd) (gpsegmentCount env)) as [Hs|Hs].
    + destruct (destList_loop_spec nd
                  (Z.to_nat (gpsegmentCount env - (segindex env + oldSegs nd)))
                  (segindex env + oldSegs nd) []) as (l & El & Hsort & Hin); try lia.
      exists l. split; [exact El|]. split.
      * intros _. split; [exact Hsort|]. intros v. rewrite Hin. split.
        -- intros (k & Hk & -> & Hv). exists (k + 1). lia.
        -- intros (k & Hk & -> & Hv). exists (k - 1). lia.
      * intros _. lia.
    + exists []. split; [reflexivity|]. split; [|congruence].
      intros _. split; [constructor|].
      intros v; split; [intros Hv; apply elem_of_nil in Hv as []|].
      intros (k & Hk & -> & Hv). nia.
  - exists []. split; [reflexivity|]. split; [lia|congruence].
Qed.

Lemma list_nth_ok {A} (l : list A) (n : Z) :
  1 <= n + 1 <= list_length l -> exists x, list_nth env l n = Ok x.
Proof.
  intros Hn. unfold list_nth, list_length in *.
  replace (0 <=? n) with true by (symmetry; apply Z.leb_le; lia).
  destruct (lookup_lt_is_Some_2 l (Z.to_nat n)) as [x Hx]; [lia|].
  exists x. rewrite Hx. reflexivity.
Qed.

Lemma init_typeoids_ok (nd : Reshuffle) (lc : list AttrNumber) :
  Forall (fun key => 1 <= to_int16 key <= list_length (targetlist nd)) lc ->
  exists ts, init_typeoids env nd lc = Ok ts.
Proof.
  induction 1 as [|a lc Ha _ [ts IH]]; [exists []; reflexivity|].
  simpl. destruct (list_nth_ok (targetlist nd) (to_int16 a - 1)) as [t Ht]; [lia|].
  rewrite Ht. simpl. rewrite IH. simpl. eauto.
Qed.

(** Setup returns exactly when the two loops do, and stores their results. *)
Lemma ExecInitReshuffle_ok (nd : Reshuffle) (outer : PlanState) l ts :
  init_destList env nd = Ok l ->
  init_typeoids env nd (policyAttrs nd) = Ok ts ->
  ExecInitReshuffle env nd outer =
    Ok (mkReshuffleState nd outer l INIT_IDX None
          (makeCdbHash (gpsegmentCount env) (list_length (policyAttrs nd)) ts)
          (if USE_ASSERT_CHECKING env
           then Some (makeCdbHash (oldSegs nd) (list_length (policyAttrs nd)) ts)
           else None)).
Proof. intros E1 E2. unfold ExecInitReshuffle. rewrite E1. simpl. rewrite E2. reflexivity. Qed.


Lemma init_destList_by_counts (nd nd' : Reshuffle) :
  oldSegs nd' = oldSegs nd -> init_destList env nd' = init_destList env nd.
Proof.
  intros E. unfold init_destList. rewrite E.
  assert (EL : forall fuel s acc,
             destList_loop env fuel nd' s acc = destList_loop env fuel nd s acc).
  { induction fuel as [|fuel IH]; intros s acc; simpl; [reflexivity|].
    rewrite E. destruct (s <? gpsegmentCount env); [|reflexivity].
    destruct (int_add s (oldSegs nd)); simpl; auto. }
  destruct (negb (is_query_dispatcher env)); [|reflexivity].
  destruct (segindex env <? oldSegs nd); [|reflexivity].
  destruct (int_add (segindex env) (oldSegs nd)); simpl; [|reflexivity..].
  destruct (a <? gpsegmentCount env); [apply EL|reflexivity].
Qed.

Lemma init_destList_3_7 (nd : Reshuffle) :
  is_query_dispatcher env = false ->
  oldSegs nd = 3 -> gpsegmentCount env = 7 ->
  (segindex env = 0 -> init_destList env nd = Ok [3; 6])
  /\ (segindex env = 1 -> init_destList env nd = Ok [4])
  /\ (segindex env = 2 -> init_destList env nd = Ok [5])
  /\ (3 <= segindex env -> init_destList env nd = Ok []).
Proof.
  intros Hqd HO HN. unfold init_destList. rewrite Hqd, HO. simpl.
  repeat split; intros Hs.
  1-3: rewrite Hs, HN; simpl; rewrite ?HO, ?HN; simpl; rewrite ?HO, ?HN; reflexivity.
  replace (segindex env <? 3) with false by (symmetry; apply Z.ltb_ge; lia).
  reflexivity.
Qed.

(** C6.  Setup on a segment returns, and the DestinationList it stores is,
    for a segment below the old count [O], the ascending sequence of the
    values [selfSegmentIndex + k*O], [k >= 1], that are below [N]; it is
    non-empty only when [selfSegmentIndex < O] and
    [selfSegmentIndex + O < N]; for [O = 3], [N = 7] it is [3;6], [4], [5]
    on segments 0, 1, 2 and empty from segment 3 on; a segment at or above
    [O] has the empty list and every output call returns NULL; setup with
    the same [O], [N] and segment index stores the same list whatever the
    rest of the plan and the child are. *)
Theorem destList_at_setup (nd : Reshuffle) (outer : PlanState) :
  is_query_dispatcher env = false ->
  0 <= segindex env < gpsegmentCount env ->
  gpsegmentCount env + oldSegs nd <= INT_MAX ->
  keys_in_targetlist nd ->
  exists st, ExecInitReshuffle env nd outer = Ok st
    /\ (segindex env < oldSegs nd ->
          StronglySorted Z.lt (destList st)
          /\ forall v, v ∈ destList st <->
               exists k, 1 <= k /\ v = segindex env + k * oldSegs nd
                         /\ v < gpsegmentCount env)
    /\ (destList st <> [] ->
          segindex env < oldSegs nd
          /\ segindex env + oldSegs nd < gpsegmentCount env)
    /\ (oldSegs nd = 3 -> gpsegmentCount env = 7 ->
          (segindex env = 0 -> destList st = [3; 6])
          /\ (segindex env = 1 -> destList st = [4])
          /\ (segindex env = 2 -> destList st = [5])
          /\ (3 <= segindex env -> destList st = []))
    /\ (oldSegs nd <= segindex env ->
          destList st = []
          /\ forall (w : World) (n : nat),
               node w = st -> plan_accepted env (plan outer) ->
               run_calls env n w = Ok (replicate n None, w))
    /\ (forall nd' outer',
          oldSegs nd' = oldSegs nd -> keys_in_targetlist nd' ->
          exists st', ExecInitReshuffle env nd' outer' = Ok st'
                      /\ destList st' = destList st).
Proof.
  intros Hqd Hself Hmax Hkeys.
  destruct (init_destList_spec nd Hqd Hself Hmax) as (l & El & Hset & Hne).
  destruct (init_typeoids_ok nd (policyAttrs nd) Hkeys) as [ts Ets].
  eexists. split; [apply (ExecInitReshuffle_ok nd outer l ts El Ets)|].
  simpl. split; [exact Hset|]. split; [exact Hne|]. split; [|split].
  - intros HO HN.
    destruct (init_destList_3_7 nd Hqd HO HN) as (E0 & E1 & E2 & E3).
    repeat split; intros Hs;
      [specialize (E0 Hs)|specialize (E1 Hs)|specialize (E2 Hs)|specialize (E3 Hs)];
      congruence.
  - intros Hge. split.
    + destruct l as [|v l]; [reflexivity|]. exfalso.
      assert (Hn : v :: l <> []) by discriminate. apply Hne in Hn. lia.
    + intros w n Ew Ha. apply run_calls_new_segment; rewrite Ew; simpl; [exact Ha|lia].
  - intros nd' outer' EO Hkeys'.
    destruct (init_typeoids_ok nd' (policyAttrs nd') Hkeys') as [ts' Ets'].
    eexists. split.
    + apply (ExecInitReshuffle_ok nd' outer' l ts'); [|exact Ets'].
      rewrite (init_destList_by_counts nd nd' EO). exact El.
    + reflexivity.
Qed.

(** ** The partitioned branch, one call *)

Arguments slot_deref : simpl never.
Arguments slot_store : simpl never.
Arguments array_get : simpl never.
Arguments array_set : simpl never.
Arguments int_add : simpl never.
Arguments int_sub : simpl never.
Arguments long_rem : simpl never.
Arguments to_int32 : simpl never.
Arguments to_int16 : simpl never.
Arguments Assert : simpl never.
Arguments list_nth : simpl never.
Arguments EvalHashSegID : simpl never.
Arguments ExecProcNode : simpl never.
Arguments loop_fuel : simpl never.

Lemma Z_geb_false a b : a < b -> (a >=? b) = false.
Proof. intros Hlt. rewrite Z.geb_leb. apply Z.leb_gt. lia. Qed.

Lemma Z_geb_true a b : b <= a -> (a >=? b) = true.
Proof. intros Hle. rewrite Z.geb_leb. apply Z.leb_le. lia. Qed.

Lemma to_int32_id z : INT_MIN <= z <= INT_MAX -> to_int32 z = z.
Proof.
  unfold to_int32, INT_MIN, INT_MAX. intros Hz.
  rewrite Z.mod_small by lia. lia.
Qed.

Lemma in_int_true z : INT_MIN <= z <= INT_MAX -> in_int z = true.
Proof.
  intros Hz. unfold in_int. apply andb_true_intro. split; apply Z.leb_le; lia.
Qed.

Lemma array_get_Ok {A} (a : list A) (i : Z) (x : A) :
  array_get a i = Ok x <-> 0 <= i /\ a !! Z.to_nat i = Some x.
Proof.
  unfold array_get. destruct (Z.leb_spec 0 i) as [Hi|Hi].
  - destruct (a !! Z.to_nat i) as [y|]; split.
    + intros [= ->]. auto.
    + intros [_ [= ->]]. reflexivity.
    + discriminate.
    + intros [_ [=]].
  - split; [discriminate|lia].
Qed.

Lemma array_set_ok {A} (a : list A) (i : Z) (x y : A) :
  array_get a i = Ok y -> array_set a i x = Ok (<[Z.to_nat i := x]> a).
Proof.
  intros [Hi Hl]%array_get_Ok. apply lookup_lt_Some in Hl.
  unfold array_set.
  replace (0 <=? i) with true by (symmetry; apply Z.leb_le; lia).
  replace (i <? Z.of_nat (length a)) with true by (symmetry; apply Z.ltb_lt; lia).
  reflexivity.
Qed.

Lemma array_get_set {A} (a : list A) (i : Z) (x y : A) :
  array_get a i = Ok y -> array_get (<[Z.to_nat i := x]> a) i = Ok x.
Proof.
  intros [Hi Hl]%array_get_Ok. apply array_get_Ok. split; [assumption|].
  apply list_lookup_insert_eq. eapply lookup_lt_Some, Hl.
Qed.

Lemma slot_deref_Some (hp : gmap slotptr TupleTableSlot) p c :
  hp !! p = Some c -> slot_deref hp (Some p) = Ok c.
Proof. intros Hp. unfold slot_deref. rewrite Hp. reflexivity. Qed.

Lemma slot_store_ok (hp : gmap slotptr TupleTableSlot) p c idx v y :
  hp !! p = Some c ->
  array_get (tts_values c) idx = Ok y ->
  slot_store hp (Some p) idx v =
    Ok (<[p := mkSlot (<[Z.to_nat idx := v]> (tts_values c)) (tts_isnull c)]> hp).
Proof.
  intros Hp Hy. unfold slot_store, slot_deref. rewrite Hp. simpl.
  rewrite (array_set_ok _ _ _ _ Hy). reflexivity.
Qed.

(** A plan the node accepts, on a segment that held data before the
    expansion: the call reaches the policy dispatch. *)
Lemma ExecReshuffle_dispatch (w : World) :
  plan_accepted env (plan (lefttree (node w))) ->
  segindex env < oldSegs (ps_plan (node w)) ->
  ExecReshuffle env w =
    match ptype (ps_plan (node w)) with
    | POLICYTYPE_PARTITIONED => ExecReshuffle_partitioned env w
    | POLICYTYPE_REPLICATED =>
        s ← int_add (segindex env) (oldSegs (ps_plan (node w)));
        if s >=? gpsegmentCount env then Ok (w, None)
        else ExecReshuffle_loop env (loop_fuel w) w
    | POLICYTYPE_ENTRY => _ ← Assert env false; Ok (w, None)
    end.
Proof.
  intros Ha Hg. unfold ExecReshuffle.
  rewrite (plan_accepted_Assert _ Ha). simpl.
  replace (segindex env >=? oldSegs (ps_plan (node w))) with false; [reflexivity|].
  symmetry. rewrite Z.geb_leb. apply Z.leb_gt. lia.
Qed.


(** ** The hash context stays bound to the new segment count *)

Lemma EvalHashSegID_loop_numsegs `{!CdbHashOk} values nulls lc : forall i h h',
  EvalHashSegID_loop values nulls lc i h = Ok h' -> numsegs h' = numsegs h.
Proof.
  induction lc as [|a lc IH]; intros i h h'; simpl.
  - intros [= ->]. reflexivity.
  - destruct (array_get values (to_int16 a - 1)) as [v| | | |]; simpl; try discriminate.
    destruct (array_get nulls (to_int16 a - 1)) as [b| | | |]; simpl; try discriminate.
    intros E. rewrite (IH _ _ _ E). apply numsegs_hash.
Qed.

Lemma EvalHashSegID_numsegs `{!CdbHashOk} values nulls attrs h h' seg :
  EvalHashSegID env values nulls attrs h = Ok (h', seg) -> numsegs h' = numsegs h.
Proof.
  unfold EvalHashSegID.
  destruct (Assert env _); simpl; try discriminate.
  destruct (EvalHashSegID_loop _ _ _ _ _) as [h1| | | |] eqn:E; simpl; try discriminate.
  intros [= <- _]. rewrite (EvalHashSegID_loop_numsegs _ _ _ _ _ _ E).
  apply numsegs_init.
Qed.

(** The loop of the hash helper is the positional fold of the key columns. *)
Lemma EvalHashSegID_loop_spec values nulls lc : forall keys i h,
  key_columns values nulls lc = Some keys ->
  EvalHashSegID_loop values nulls lc i h = Ok (spec_fold h (i + 1) keys).
Proof.
  induction lc as [|a lc IH]; intros keys i h; simpl.
  - intros [= <-]. reflexivity.
  - destruct (Z.leb_spec 1 (to_int16 a)) as [Ha|Ha]; [|discriminate].
    destruct (values !! Z.to_nat (to_int16 a - 1)) as [v|] eqn:Ev; simpl; [|discriminate].
    destruct (nulls !! Z.to_nat (to_int16 a - 1)) as [b|] eqn:Eb; simpl; [|discriminate].
    destruct (key_columns values nulls lc) as [ks|] eqn:Ek; simpl; [|discriminate].
    intros [= <-].
    rewrite (proj2 (array_get_Ok values (to_int16 a - 1) v)) by (split; [lia|exact Ev]).
    simpl.
    rewrite (proj2 (array_get_Ok nulls (to_int16 a - 1) b)) by (split; [lia|exact Eb]).
    simpl. apply IH. reflexivity.
Qed.

Lemma EvalHashSegID_spec values nulls attrs keys h :
  attrs <> [] ->
  key_columns values nulls attrs = Some keys ->
  EvalHashSegID env values nulls attrs h =
    Ok (spec_fold (cdbhashinit h) 1 keys, to_int32 (spec_hash_reduction h keys)).
Proof.
  intros Hne Hk. unfold EvalHashSegID.
  rewrite (Assert_true (negb _)) by (rewrite bool_decide_eq_false_2; auto).
  simpl. rewrite (EvalHashSegID_loop_spec _ _ _ _ _ _ Hk). reflexivity.
Qed.

(** Inversion of a successful computation, one bind at a time. *)
Ltac bind_inv H :=
  repeat match type of H with
  | (mbind _ ?m) = Ok _ =>
      let E := fresh "E" in
      destruct m eqn:E; simpl in H; try discriminate H
  | (match ?x with (_, _) => _ end) = Ok _ =>
      let E := fresh "E" in destruct x eqn:E; simpl in H
  | (if ?b then _ else _) = Ok _ =>
      let E := fresh "E" in destruct b eqn:E; simpl in H; try discriminate H
  | (match ?x with Some _ => _ | None => _ end) = Ok _ =>
      let E := fresh "E" in destruct x eqn:E; simpl in H; try discriminate H
  | (match ?x with inl _ => _ | inr _ => _ end) = Ok _ =>
      let E := fresh "E" in destruct x eqn:E; simpl in H; try discriminate H
  end.

Ltac bind_inv_all :=
  repeat match goal with
  | H : _ = Ok _ |- _ => progress bind_inv H
  end.

Lemma ExecProcNode_plan o hp o' hp' slot :
  ExecProcNode o hp = (o', hp', slot) -> plan o' = plan o.
Proof.
  unfold ExecProcNode. destruct (chgParam o); simpl.
  - destruct (outer_all o) as [|[p c] rest]; intros [= <- _ _]; reflexivity.
  - destruct (outer_pending o) as [|[p c] rest]; intros [= <- _ _]; reflexivity.
Qed.

Lemma same_setup_refl w : same_setup w w.
Proof. repeat split. Qed.

Lemma same_setup_trans w1 w2 w3 :
  same_setup w1 w2 -> same_setup w2 w3 -> same_setup w1 w3.
Proof.
  intros (A1 & A2 & A3 & A4 & A5) (B1 & B2 & B3 & B4 & B5).
  repeat split; congruence.
Qed.

Lemma ExecReshuffle_partitioned_setup `{!CdbHashOk} w w' slot :
  ExecReshuffle_partitioned env w = Ok (w', slot) -> same_setup w w'.
Proof.
  unfold ExecReshuffle_partitioned. intros E.
  destruct (ExecProcNode _ _) as [[o hp] s] eqn:Ep.
  apply ExecProcNode_plan in Ep.
  destruct s as [p|]; [|injection E as <- _; repeat split; simpl; auto].
  bind_inv_all; simplify_eq; repeat split; simpl; auto;
    try (eapply EvalHashSegID_numsegs; eassumption);
    match goal with
    | Ho : node_oldcdbhash _ = Some _ |- _ =>
        rewrite Ho; simpl; f_equal; eapply EvalHashSegID_numsegs; eassumption
    end.
Qed.

Lemma ExecReshuffle_loop_setup fuel : forall w w' slot,
  ExecReshuffle_loop env fuel w = Ok (w', slot) -> same_setup w w'.
Proof.
  induction fuel as [|fuel IH]; intros w w' slot E; simpl in E; [discriminate|].
  destruct (ExecProcNode (lefttree (node w)) (slots w)) as [[o hp] s] eqn:Ep.
  apply ExecProcNode_plan in Ep.
  bind_inv_all; simplify_eq;
    try match goal with
        | Hl : ExecReshuffle_loop _ _ _ = Ok _ |- _ =>
            apply IH in Hl; eapply same_setup_trans; [|exact Hl]
        end;
    repeat split; simpl; auto.
Qed.

Lemma ExecReshuffle_setup `{!CdbHashOk} w w' slot :
  ExecReshuffle env w = Ok (w', slot) -> same_setup w w'.
Proof.
  unfold ExecReshuffle, mbind, result_bind. intros E.
  repeat case_match; simplify_eq; try apply same_setup_refl.
  - eapply ExecReshuffle_partitioned_setup; eassumption.
  - eapply ExecReshuffle_loop_setup; eassumption.
Qed.

Lemma ExecReScanReshuffle_setup w : same_setup w (ExecReScanReshuffle w).
Proof.
  unfold ExecReScanReshuffle. destruct (negb _); repeat split.
Qed.

(** Setup binds the context to [getgpsegmentCount()], and no call rebinds
    it. *)
Lemma reachable_numsegs `{!CdbHashOk} w :
  reachable env w -> numsegs (node_cdbhash (node w)) = gpsegmentCount env.
Proof.
  induction 1 as [nd outer st hp rnd E|w w' slot _ IH E|w _ IH].
  - unfold ExecInitReshuffle in E.
    destruct (init_destList env nd); simpl in E; try discriminate.
    destruct (init_typeoids env nd _); simpl in E; try discriminate.
    injection E as <-. simpl. apply numsegs_make.
  - apply ExecReshuffle_setup in E as (_ & _ & _ & -> & _). exact IH.
  - destruct (ExecReScanReshuffle_setup w) as (_ & _ & _ & -> & _). exact IH.
Qed.

(** In an assertion-enabled build setup also makes the context of the
    consistency check, bound to the old segment count, and no call rebinds
    it. *)
Lemma reachable_old_numsegs `{!CdbHashOk} w :
  reachable env w ->
  USE_ASSERT_CHECKING env = true ->
  exists oh, node_oldcdbhash (node w) = Some oh
             /\ numsegs oh = oldSegs (ps_plan (node w)).
Proof.
  intros Hreach Hdbg.
  assert (Hn : numsegs <$> node_oldcdbhash (node w) = Some (oldSegs (ps_plan (node w)))).
  { induction Hreach as [nd outer st hp rnd E|w w' slot _ IH E|w _ IH].
    - unfold ExecInitReshuffle in E.
      destruct (init_destList env nd); simpl in E; try discriminate.
      destruct (init_typeoids env nd _); simpl in E; try discriminate.
      injection E as <-. simpl. rewrite Hdbg. simpl. rewrite numsegs_make. reflexivity.
    - apply ExecReshuffle_setup in E as (-> & _ & _ & _ & ->). exact IH.
    - destruct (ExecReScanReshuffle_setup w) as (-> & _ & _ & _ & ->). exact IH. }
  destruct (node_oldcdbhash (node w)) as [oh|]; [|discriminate].
  injection Hn as Hn. eauto.
Qed.

Lemma spec_fold_numsegs `{!CdbHashOk} keys : forall h pos,
  numsegs (spec_fold h pos keys) = numsegs h.
Proof.
  induction keys as [|[v b] keys IH]; intros h pos; simpl; [reflexivity|].
  rewrite IH. apply numsegs_hash.
Qed.

(** C3.  Hash policy (partitioned, with key columns), in any world reached
    from setup, on a segment below [O].  The node's hash context is bound
    to the new segment count [N]; for an Insert-tagged row pulled from the
    child the call returns that row with its segment column set to the
    reduction of the row's key columns: the context is reset, the (value,
    null flag) pair of each key column is folded in with its position,
    counted from 1, and the reduction, a segment of [0, N), is written. *)
Theorem hash_routing `{!HeadersOk} `{!CdbHashOk}
    (w : World) (o' : PlanState) (hp' : gmap slotptr TupleTableSlot)
    (p : slotptr) (c : TupleTableSlot) (a v : Datum)
    (keys : list (Datum * bool)) :
  let reshuffle := ps_plan (node w) in
  let N := gpsegmentCount env in
  reachable env w ->
  ptype reshuffle = POLICYTYPE_PARTITIONED ->
  policyAttrs reshuffle <> [] ->
  segindex env < oldSegs reshuffle ->
  0 < N <= INT_MAX ->
  ExecProcNode (lefttree (node w)) (slots w) = (o', hp', Some p) ->
  hp' !! p = Some c ->
  array_get (tts_values c) (actionColIdx (plan (lefttree (node w))) - 1) = Ok a ->
  DatumGetInt32 a = DML_INSERT ->
  array_get (tts_values c) (tupleSegIdx reshuffle - 1) = Ok v ->
  key_columns (tts_values c) (tts_isnull c) (policyAttrs reshuffle) = Some keys ->
  let h := node_cdbhash (node w) in
  let seg := spec_hash_reduction h keys in
  numsegs h = N
  /\ 0 <= seg < N
  /\ DatumGetInt32 (Int32GetDatum seg) = seg
  /\ ExecReshuffle env w =
       Ok (mkWorld
             (<[p := mkSlot (<[Z.to_nat (tupleSegIdx reshuffle - 1) := Int32GetDatum seg]>
                               (tts_values c)) (tts_isnull c)]> hp')
             (rand w)
             (with_cdbhash (with_lefttree (node w) o')
                (spec_fold (cdbhashinit h) 1 keys)),
           Some p).
Proof.
  intros reshuffle N Hreach Hpt Hne Hself HN Hpull Hc Hact Hins Hseg Hkeys h seg.
  pose proof (array_get_accepted _ _ _ Hact) as Ha.
  pose proof (reachable_numsegs w Hreach) as Hbound. fold h N in Hbound.
  assert (Hfold : numsegs (spec_fold (cdbhashinit h) 1 keys) = N)
    by (rewrite spec_fold_numsegs, numsegs_init; exact Hbound).
  assert (Hrange : 0 <= seg < N).
  { pose proof (reduce_range (spec_fold (cdbhashinit h) 1 keys)) as Hr.
    rewrite Hfold in Hr. apply Hr. lia. }
  assert (Hrt : DatumGetInt32 (Int32GetDatum seg) = seg).
  { apply datum_int32, in_int_true. unfold INT_MIN, INT_MAX in *. lia. }
  split; [exact Hbound|]. split; [exact Hrange|]. split; [exact Hrt|].
  rewrite ExecReshuffle_dispatch by assumption.
  fold reshuffle. rewrite Hpt. unfold ExecReshuffle_partitioned.
  rewrite Hpull. fold reshuffle. rewrite (slot_deref_Some _ _ _ Hc). simpl.
  rewrite Hact. simpl. rewrite Hins, Z.eqb_refl. simpl.
  rewrite (Assert_true true) by reflexivity. simpl.
  rewrite bool_decide_eq_false_2 by exact Hne. simpl.
  rewrite (EvalHashSegID_spec _ _ _ keys _ Hne Hkeys). simpl.
  fold h seg. rewrite to_int32_id by (unfold INT_MIN, INT_MAX in *; lia).
  rewrite (slot_store_ok hp' p c _ _ v Hc Hseg). simpl.
  destruct (USE_ASSERT_CHECKING env); [|reflexivity].
  rewrite (slot_deref_Some _ _ _ (lookup_insert_eq _ _ _)). simpl.
  rewrite (array_get_set _ _ _ _ Hseg). simpl. rewrite Hrt.
  rewrite (Z_geb_false seg (gpsegmentCount env)) by (fold N; lia). reflexivity.
Qed.

(** ** The partitioned branch writes one column of one slot *)

Lemma slot_deref_inv (hp : gmap slotptr TupleTableSlot) slot c :
  slot_deref hp slot = Ok c -> exists p, slot = Some p /\ hp !! p = Some c.
Proof.
  unfold slot_deref. destruct slot as [p|]; [|discriminate].
  destruct (hp !! p) as [c0|] eqn:E; [|discriminate].
  intros [= ->]. eauto.
Qed.

Lemma array_set_inv {A} (a : list A) (i : Z) (x : A) a' :
  array_set a i x = Ok a' ->
  0 <= i < Z.of_nat (length a) /\ a' = <[Z.to_nat i := x]> a.
Proof.
  unfold array_set.
  destruct (Z.leb_spec 0 i); simpl; [|discriminate].
  destruct (Z.ltb_spec i (Z.of_nat (length a))); [|discriminate].
  intros [= <-]. split; [lia|reflexivity].
Qed.

Lemma slot_store_inv (hp hp' : gmap slotptr TupleTableSlot) p idx v :
  slot_store hp (Some p) idx v = Ok hp' ->
  exists c, hp !! p = Some c
    /\ 0 <= idx < Z.of_nat (length (tts_values c))
    /\ hp' = <[p := mkSlot (<[Z.to_nat idx := v]> (tts_values c)) (tts_isnull c)]> hp.
Proof.
  unfold slot_store. intros E.
  destruct (slot_deref hp (Some p)) as [c| | | |] eqn:Ed; simpl in E; try discriminate.
  apply slot_deref_inv in Ed as (p' & [= <-] & Hc).
  destruct (array_set _ _ _) as [vals| | | |] eqn:Es; simpl in E; try discriminate.
  apply array_set_inv in Es as [Hi ->]. injection E as <-. eauto.
Qed.

Lemma ExecProcNode_Some o hp o' hp' p :
  ExecProcNode o hp = (o', hp', Some p) -> exists c, hp' !! p = Some c.
Proof.
  unfold ExecProcNode.
  destruct (outer_pending _) as [|[q c] rest]; [discriminate|].
  intros [= _ <- <-]. exists c. apply lookup_insert_eq.
Qed.

(** A returned row is the row the child produced, with at most its segment
    column overwritten. *)
Lemma ExecReshuffle_partitioned_row w w' p :
  ExecReshuffle_partitioned env w = Ok (w', Some p) ->
  exists o' hp' c,
    ExecProcNode (lefttree (node w)) (slots w) = (o', hp', Some p)
    /\ hp' !! p = Some c
    /\ (slots w' = hp'
        \/ exists d,
             0 <= tupleSegIdx (ps_plan (node w)) - 1 < Z.of_nat (length (tts_values c))
             /\ slots w' =
                  <[p := mkSlot (<[Z.to_nat (tupleSegIdx (ps_plan (node w)) - 1) := d]>
                                   (tts_values c)) (tts_isnull c)]> hp').
Proof.
  unfold ExecReshuffle_partitioned. intros E.
  destruct (ExecProcNode _ _) as [[o hp] s] eqn:Ep.
  destruct s as [q|]; [|discriminate].
  destruct (ExecProcNode_Some _ _ _ _ _ Ep) as [c Hc].
  bind_inv_all; simplify_eq; exists o, hp, c;
    (split; [reflexivity|]); (split; [exact Hc|]);
    try (left; reflexivity);
    match goal with
    | Hs : slot_store _ _ _ _ = Ok _ |- _ =>
        let cs := fresh "cs" in
        let Hcs := fresh "Hcs" in
        let Hi := fresh "Hi" in
        apply slot_store_inv in Hs as (cs & Hcs & Hi & ->);
        rewrite Hc in Hcs; injection Hcs as <-;
        right; eexists; split; [exact Hi|reflexivity]
    end.
Qed.

(** C10.  Partitioned policies (hash and random): when an output call
    returns a row, the row is the one the child just produced, in the
    child's slot, and it differs from what the child produced at most in
    the segment column [tupleSegIdx]: the null flags are the same, the
    number of columns is the same, every other column holds the same value
    (the action column among them, when it is not the segment column), and
    no other slot of the store is written. *)
Theorem partitioned_frame (w w' : World) (p : slotptr) :
  ptype (ps_plan (node w)) = POLICYTYPE_PARTITIONED ->
  ExecReshuffle env w = Ok (w', Some p) ->
  exists o' hp' c c',
    ExecProcNode (lefttree (node w)) (slots w) = (o', hp', Some p)
    /\ hp' !! p = Some c
    /\ slots w' !! p = Some c'
    /\ tts_isnull c' = tts_isnull c
    /\ length (tts_values c') = length (tts_values c)
    /\ (forall j : nat,
          j <> Z.to_nat (tupleSegIdx (ps_plan (node w)) - 1) ->
          tts_values c' !! j = tts_values c !! j)
    /\ (actionColIdx (plan (lefttree (node w))) <> tupleSegIdx (ps_plan (node w)) ->
        array_get (tts_values c') (actionColIdx (plan (lefttree (node w))) - 1)
        = array_get (tts_values c) (actionColIdx (plan (lefttree (node w))) - 1))
    /\ (forall q, q <> p -> slots w' !! q = hp' !! q).
Proof.
  intros Hpt E.
  assert (Ep : ExecReshuffle_partitioned env w = Ok (w', Some p)).
  { revert E. unfold ExecReshuffle, mbind, result_bind. rewrite Hpt.
    repeat case_match; intros; simplify_eq; assumption. }
  destruct (ExecReshuffle_partitioned_row _ _ _ Ep) as (o' & hp' & c & Hpull & Hc & Hw).
  exists o', hp', c.
  destruct Hw as [Hw|(d & Hi & Hw)]; rewrite Hw.
  - exists c. repeat split; auto.
  - eexists. split; [exact Hpull|]. split; [exact Hc|].
    split; [apply lookup_insert_eq|]. simpl.
    split; [reflexivity|]. split; [apply length_insert|]. split; [|split].
    + intros j Hj. apply list_lookup_insert_ne. congruence.
    + intros Hne. unfold array_get.
      destruct (Z.leb_spec 0 (actionColIdx (plan (lefttree (node w))) - 1));
        [|reflexivity].
      rewrite list_lookup_insert_ne by lia. reflexivity.
    + intros q Hq. apply lookup_insert_ne. congruence.
Qed.

(** ** The consistency checks *)

(** The call up to the inspection of the action column, for a row pulled
    under a partitioned policy. *)
Ltac partitioned_pull Hpt Hpull Hc Hact :=
  rewrite ExecReshuffle_dispatch by assumption;
  rewrite Hpt; unfold ExecReshuffle_partitioned;
  rewrite Hpull; rewrite (slot_deref_Some _ _ _ Hc); simpl;
  rewrite Hact; simpl.

(** C8 (amended).  The consistency checks exist only in assertion-enabled
    builds.  There, in any world reached from setup, the node holds a
    second hash context bound to the old segment count [O]; a Delete-tagged
    row of a hash-distributed table whose segment column differs from the
    reduction of its key columns in that context trips an assertion; a row
    whose segment column, as left by the routing step, is [>= N] raises the
    error "ERROR SEGMENT ID", and no other value of the column does, a
    negative one included.  In production builds neither check is made:
    the Delete row is returned as the child produced it whatever its
    segment column holds, and an Insert row is returned with whatever the
    hash reduction gave. *)
Theorem consistency_checks_only_with_assertions `{!HeadersOk} `{!CdbHashOk}
    (w : World) (o' : PlanState) (hp' : gmap slotptr TupleTableSlot)
    (p : slotptr) (c : TupleTableSlot) (a v : Datum)
    (keys : list (Datum * bool)) :
  let reshuffle := ps_plan (node w) in
  let N := gpsegmentCount env in
  reachable env w ->
  ptype reshuffle = POLICYTYPE_PARTITIONED ->
  segindex env < oldSegs reshuffle ->
  ExecProcNode (lefttree (node w)) (slots w) = (o', hp', Some p) ->
  hp' !! p = Some c ->
  array_get (tts_values c) (actionColIdx (plan (lefttree (node w))) - 1) = Ok a ->
  array_get (tts_values c) (tupleSegIdx reshuffle - 1) = Ok v ->
  key_columns (tts_values c) (tts_isnull c) (policyAttrs reshuffle) = Some keys ->
  (DatumGetInt32 a = DML_DELETE ->
     (USE_ASSERT_CHECKING env = false ->
        ExecReshuffle env w =
          Ok (mkWorld hp' (rand w) (with_lefttree (node w) o'), Some p))
     /\ (USE_ASSERT_CHECKING env = true ->
         policyAttrs reshuffle <> [] ->
         exists oh,
           node_oldcdbhash (node w) = Some oh
           /\ numsegs oh = oldSegs reshuffle
           /\ (v <> Int32GetDatum (to_int32 (spec_hash_reduction oh keys)) ->
                ExecReshuffle env w = AssertFailed)
           /\ (v = Int32GetDatum (to_int32 (spec_hash_reduction oh keys)) ->
               DatumGetInt32 v >= N ->
               ExecReshuffle env w = ElogError (DatumGetInt32 v)))
     /\ (USE_ASSERT_CHECKING env = true ->
         policyAttrs reshuffle = [] ->
         ExecReshuffle env w =
           if DatumGetInt32 v >=? N
           then ElogError (DatumGetInt32 v)
           else Ok (mkWorld hp' (rand w) (with_lefttree (node w) o'), Some p)))
  /\ (DatumGetInt32 a = DML_INSERT ->
      policyAttrs reshuffle <> [] ->
      let seg := to_int32 (spec_hash_reduction (node_cdbhash (node w)) keys) in
      (USE_ASSERT_CHECKING env = false ->
         ExecReshuffle env w =
           Ok (mkWorld
                 (<[p := mkSlot (<[Z.to_nat (tupleSegIdx reshuffle - 1) := Int32GetDatum seg]>
                                   (tts_values c)) (tts_isnull c)]> hp')
                 (rand w)
                 (with_cdbhash (with_lefttree (node w) o')
                    (spec_fold (cdbhashinit (node_cdbhash (node w))) 1 keys)),
               Some p))
      /\ (USE_ASSERT_CHECKING env = true ->
          DatumGetInt32 (Int32GetDatum seg) >= N ->
          ExecReshuffle env w = ElogError (DatumGetInt32 (Int32GetDatum seg)))).
Proof.
  intros reshuffle N Hreach Hpt Hself Hpull Hc Hact Hseg Hkeys.
  pose proof (array_get_accepted _ _ _ Hact) as Ha.
  subst reshuffle.
  assert (Hnd : (DML_INSERT =? DML_DELETE) = false)
    by (apply Z.eqb_neq, dml_distinct).
  split.
  - intros Hdel. split; [|split].
    + intros Hprod. partitioned_pull Hpt Hpull Hc Hact.
      rewrite (Assert_production (_ || _)) by exact Hprod. simpl.
      rewrite Hdel, Hnd, Hprod. reflexivity.
    + intros Hdbg Hne.
      destruct (reachable_old_numsegs w Hreach Hdbg) as (oh & Hoh & Hnum).
      exists oh. split; [exact Hoh|]. split; [exact Hnum|]. split.
      * intros Hmis. partitioned_pull Hpt Hpull Hc Hact.
        rewrite Hdel, Hnd, Z.eqb_refl, orb_true_r.
        rewrite (Assert_true true) by reflexivity. simpl. rewrite Hdbg.
        rewrite bool_decide_eq_false_2 by exact Hne. simpl.
        rewrite Hseg. simpl. rewrite Hoh. simpl.
        rewrite (EvalHashSegID_spec _ _ _ keys _ Hne Hkeys). simpl.
        replace (v =? _) with false by (symmetry; apply Z.eqb_neq; exact Hmis).
        rewrite Assert_checked_false by exact Hdbg. reflexivity.
      * intros Hmatch Hbig. partitioned_pull Hpt Hpull Hc Hact.
        rewrite Hdel, Hnd, Z.eqb_refl, orb_true_r.
        rewrite (Assert_true true) by reflexivity. simpl. rewrite Hdbg.
        rewrite bool_decide_eq_false_2 by exact Hne. simpl.
        rewrite Hseg. simpl. rewrite Hoh. simpl.
        rewrite (EvalHashSegID_spec _ _ _ keys _ Hne Hkeys). simpl.
        rewrite (Assert_true (v =? _)) by (apply Z.eqb_eq; exact Hmatch). simpl.
        rewrite (slot_deref_Some _ _ _ Hc). simpl. rewrite Hseg. simpl.
        rewrite (Z_geb_true (DatumGetInt32 v) N) by lia. reflexivity.
    + intros Hdbg Hrandom. partitioned_pull Hpt Hpull Hc Hact.
      rewrite Hdel, Hnd, Z.eqb_refl, orb_true_r.
      rewrite (Assert_true true) by reflexivity. simpl. rewrite Hdbg.
      rewrite Hrandom. simpl.
      rewrite (slot_deref_Some _ _ _ Hc). simpl. rewrite Hseg. simpl.
      fold N. destruct (DatumGetInt32 v >=? N); reflexivity.
  - intros Hins Hne seg. split.
    + intros Hprod. partitioned_pull Hpt Hpull Hc Hact.
      rewrite (Assert_production (_ || _)) by exact Hprod. simpl.
      rewrite Hins, Z.eqb_refl.
      rewrite bool_decide_eq_false_2 by exact Hne. simpl.
      rewrite (EvalHashSegID_spec _ _ _ keys _ Hne Hkeys). simpl.
      rewrite (slot_store_ok hp' p c _ _ v Hc Hseg). simpl.
      rewrite Hprod. reflexivity.
    + intros Hdbg Hbig. partitioned_pull Hpt Hpull Hc Hact.
      rewrite Hins, Z.eqb_refl. simpl.
      rewrite (Assert_true true) by reflexivity. simpl.
      rewrite bool_decide_eq_false_2 by exact Hne. simpl.
      rewrite (EvalHashSegID_spec _ _ _ keys _ Hne Hkeys). simpl.
      rewrite (slot_store_ok hp' p c _ _ v Hc Hseg). simpl.
      rewrite Hdbg.
      rewrite (slot_deref_Some _ _ _ (lookup_insert_eq _ _ _)). simpl.
      rewrite (array_get_set _ _ _ _ Hseg). simpl.
      rewrite (Z_geb_true (DatumGetInt32 (Int32GetDatum seg)) N) by lia.
      reflexivity.
Qed.

(** ** Setup and the configuration *)

(** C7 (amended).  Neither [O >= N] nor an empty key-attribute list is a
    fault at setup.  With [O >= N], on a segment and for key entries that
    name target-list entries, setup returns a node whose DestinationList is
    empty; with an empty key-attribute list, on a segment of the cluster, it
    returns a node whose hash context is made for zero key columns.  In an
    assertion-enabled build, on a segment below [O], the output call that
    pulls an Insert-tagged row of a partitioned table without key columns
    fails [Assert(newSegs > oldSegs)] when [O >= N]. *)
Theorem setup_accepts_no_growth_and_no_keys :
  (forall (nd : Reshuffle) (outer : PlanState),
     keys_in_targetlist nd ->
     0 <= segindex env ->
     segindex env + oldSegs nd <= INT_MAX ->
     gpsegmentCount env <= oldSegs nd ->
     exists st, ExecInitReshuffle env nd outer = Ok st
       /\ ps_plan st = nd /\ destList st = []
       /\ newTargetIdx st = INIT_IDX /\ savedSlot st = None)
  /\ (forall (nd : Reshuffle) (outer : PlanState),
        policyAttrs nd = [] ->
        is_query_dispatcher env = false ->
        0 <= segindex env < gpsegmentCount env ->
        gpsegmentCount env + oldSegs nd <= INT_MAX ->
        exists st, ExecInitReshuffle env nd outer = Ok st
          /\ ps_plan st = nd
          /\ node_cdbhash st = makeCdbHash (gpsegmentCount env) 0 [])
  /\ (forall (w : World) o' hp' p c a,
        USE_ASSERT_CHECKING env = true ->
        ptype (ps_plan (node w)) = POLICYTYPE_PARTITIONED ->
        policyAttrs (ps_plan (node w)) = [] ->
        segindex env < oldSegs (ps_plan (node w)) ->
        gpsegmentCount env <= oldSegs (ps_plan (node w)) ->
        ExecProcNode (lefttree (node w)) (slots w) = (o', hp', Some p) ->
        hp' !! p = Some c ->
        array_get (tts_values c) (actionColIdx (plan (lefttree (node w))) - 1) = Ok a ->
        DatumGetInt32 a = DML_INSERT ->
        ExecReshuffle env w = AssertFailed).
Proof.
  split; [|split].
  - intros nd outer Hkeys Hself Hmax HON.
    destruct (init_typeoids_ok nd (policyAttrs nd) Hkeys) as [ts Ets].
    assert (El : init_destList env nd = Ok []).
    { unfold init_destList. destruct (negb _); [|reflexivity].
      destruct (Z.ltb_spec (segindex env) (oldSegs nd)); [|reflexivity].
      rewrite int_add_ok by (unfold INT_MIN, INT_MAX in *; lia). simpl.
      destruct (Z.ltb_spec (segindex env + oldSegs nd) (gpsegmentCount env));
        [lia|reflexivity]. }
    eexists. split; [apply (ExecInitReshuffle_ok nd outer [] ts El Ets)|].
    repeat split.
  - intros nd outer Hkeys Hqd Hself Hmax.
    destruct (init_destList_spec nd Hqd Hself Hmax) as (l & El & _).
    eexists. split.
    + apply (ExecInitReshuffle_ok nd outer l [] El). rewrite Hkeys. reflexivity.
    + rewrite Hkeys. split; reflexivity.
  - intros w o' hp' p c a Hdbg Hpt Hkeys Hself HON Hpull Hc Hact Hins.
    pose proof (array_get_accepted _ _ _ Hact) as Ha.
    partitioned_pull Hpt Hpull Hc Hact.
    rewrite Hins, Z.eqb_refl. simpl.
    rewrite (Assert_true true) by reflexivity. simpl.
    rewrite Hkeys. simpl.
    replace (gpsegmentCount env >? oldSegs (ps_plan (node w))) with false.
    + rewrite Assert_checked_false by exact Hdbg. reflexivity.
    + symmetry. rewrite Z.gtb_ltb. apply Z.ltb_ge. lia.
Qed.

(** ** The replicated branch, one iteration of the loop *)

Lemma list_nth_lookup {A} (l : list A) (k : nat) (x : A) :
  l !! k = Some x -> list_nth env l (Z.of_nat k) = Ok x.
Proof.
  intros Hx. unfold list_nth.
  replace (0 <=? Z.of_nat k) with true by (symmetry; apply Z.leb_le; lia).
  rewrite Nat2Z.id, Hx. reflexivity.
Qed.

Lemma next_idx_last dl k : S k = length dl -> next_idx dl k = INIT_IDX.
Proof.
  intros E. unfold next_idx, list_length. rewrite Z_geb_true by lia. reflexivity.
Qed.

Lemma next_idx_more dl k : (S k < length dl)%nat -> next_idx dl k = Z.of_nat (S k).
Proof.
  intros E. unfold next_idx, list_length. rewrite Z_geb_false by lia. lia.
Qed.

(** The cursor is at its initial value and the child has no more rows. *)
Lemma loop_end fuel w o' hp' :
  newTargetIdx (node w) = INIT_IDX ->
  ExecProcNode (lefttree (node w)) (slots w) = (o', hp', None) ->
  ExecReshuffle_loop env (S fuel) w =
    Ok (mkWorld hp' (rand w) (with_lefttree (node w) o'), None).
Proof.
  intros Hk Hpull. simpl. rewrite Hk, Hpull. reflexivity.
Qed.

(** The cursor is at its initial value and the child produces a Delete row:
    the row is dropped and the loop goes round. *)
Lemma loop_delete `{!HeadersOk} fuel w o' hp' p c :
  newTargetIdx (node w) = INIT_IDX ->
  ExecProcNode (lefttree (node w)) (slots w) = (o', hp', Some p) ->
  hp' !! p = Some c ->
  tagged (plan (lefttree (node w))) c DML_DELETE ->
  ExecReshuffle_loop env (S fuel) w =
    ExecReshuffle_loop env fuel
      (mkWorld hp' (rand w) (with_savedSlot (with_lefttree (node w) o') (Some p))).
Proof.
  intros Hk Hpull Hc (a & Hact & Hdel). simpl. rewrite Hk, Hpull. simpl.
  rewrite (slot_deref_Some _ _ _ Hc). simpl. rewrite Hact. simpl.
  rewrite Hdel, Z.eqb_refl, orb_true_r.
  rewrite (Assert_true true) by reflexivity. reflexivity.
Qed.

(** The cursor is at its initial value and the child produces an Insert
    row: it is returned with the first destination. *)
Lemma loop_insert `{!HeadersOk} fuel w o' hp' p c v d :
  newTargetIdx (node w) = INIT_IDX ->
  ExecProcNode (lefttree (node w)) (slots w) = (o', hp', Some p) ->
  hp' !! p = Some c ->
  tagged (plan (lefttree (node w))) c DML_INSERT ->
  array_get (tts_values c) (tupleSegIdx (ps_plan (node w)) - 1) = Ok v ->
  destList (node w) !! 0%nat = Some d ->
  ExecReshuffle_loop env (S fuel) w =
    Ok (mkWorld (<[p := set_segid (tupleSegIdx (ps_plan (node w))) c d]> hp') (rand w)
          (with_newTargetIdx (with_savedSlot (with_lefttree (node w) o') (Some p))
             (next_idx (destList (node w)) 0)),
        Some p).
Proof.
  intros Hk Hpull Hc (a & Hact & Hins) Hseg Hd. simpl. rewrite Hk, Hpull. simpl.
  rewrite (slot_deref_Some _ _ _ Hc). simpl. rewrite Hact. simpl.
  rewrite Hins, Z.eqb_refl. simpl.
  rewrite (Assert_true true) by reflexivity. simpl.
  replace (DML_INSERT =? DML_DELETE) with false
    by (symmetry; apply Z.eqb_neq, dml_distinct).
  rewrite Hk. change INIT_IDX with (Z.of_nat 0).
  rewrite (list_nth_lookup _ 0 d Hd). simpl.
  rewrite (slot_store_ok hp' p c _ _ v Hc Hseg). reflexivity.
Qed.

(** The cursor is inside the list: the saved row is returned once more,
    with the destination under the cursor. *)
Lemma loop_saved `{!HeadersOk} fuel w k p c v d :
  newTargetIdx (node w) = Z.of_nat (S k) ->
  savedSlot (node w) = Some p ->
  slots w !! p = Some c ->
  tagged (plan (lefttree (node w))) c DML_INSERT ->
  array_get (tts_values c) (tupleSegIdx (ps_plan (node w)) - 1) = Ok v ->
  destList (node w) !! S k = Some d ->
  ExecReshuffle_loop env (S fuel) w =
    Ok (mkWorld (<[p := set_segid (tupleSegIdx (ps_plan (node w))) c d]> (slots w)) (rand w)
          (with_newTargetIdx (node w) (next_idx (destList (node w)) (S k))),
        Some p).
Proof.
  intros Hk Hsaved Hc (a & Hact & Hins) Hseg Hd.
  cbn [ExecReshuffle_loop]. rewrite Hk.
  replace (Z.of_nat (S k) =? INIT_IDX) with false
    by (symmetry; apply Z.eqb_neq; unfold INIT_IDX; lia).
  rewrite Hsaved. simpl. rewrite Hc.
  rewrite (Assert_true (bool_decide _)) by (apply bool_decide_eq_true; eauto).
  simpl. rewrite (slot_deref_Some _ _ _ Hc). simpl. rewrite Hact. simpl.
  rewrite Hins, Z.eqb_refl. simpl.
  rewrite (Assert_true true) by reflexivity. simpl.
  replace (DML_INSERT =? DML_DELETE) with false
    by (symmetry; apply Z.eqb_neq, dml_distinct).
  rewrite Hk. rewrite (list_nth_lookup _ (S k) d Hd). simpl.
  rewrite (slot_store_ok (slots w) p c _ _ v Hc Hseg). reflexivity.
Qed.

(** ** The replicated branch, one call *)

Lemma is_delete_tagged su c : tagged su c DML_DELETE -> is_delete su c = true.
Proof.
  intros (a & Hact & Hdel). unfold is_delete. rewrite Hact, Hdel. apply Z.eqb_refl.
Qed.

Lemma is_delete_insert `{!HeadersOk} su c : tagged su c DML_INSERT -> is_delete su c = false.
Proof.
  intros (a & Hact & Hins). unfold is_delete. rewrite Hact, Hins.
  apply Z.eqb_neq, dml_distinct.
Qed.

Lemma routable_insert rs su c :
  routable rs su c -> is_delete su c = false -> tagged su c DML_INSERT.
Proof.
  intros [[Hi|Hd] _] Hnd; [exact Hi|].
  rewrite (is_delete_tagged _ _ Hd) in Hnd. discriminate.
Qed.

Lemma set_segid_twice idx c d d' :
  set_segid idx (set_segid idx c d) d' = set_segid idx c d'.
Proof. unfold set_segid. simpl. rewrite list_insert_insert_eq. reflexivity. Qed.

Lemma set_segid_segcol idx c d v :
  array_get (tts_values c) (idx - 1) = Ok v ->
  array_get (tts_values (set_segid idx c d)) (idx - 1) = Ok (Int32GetDatum d).
Proof. intros Hv. unfold set_segid. simpl. eapply array_get_set, Hv. Qed.

Lemma set_segid_tagged rs su c d t :
  tupleSegIdx rs <> actionColIdx su ->
  routable rs su c ->
  tagged su c t -> tagged su (set_segid (tupleSegIdx rs) c d) t.
Proof.
  intros Hne [_ [v Hv]] (a & Hact & Ht). exists a. split; [|exact Ht].
  apply array_get_Ok in Hact as [Hi Ha]. apply array_get_Ok in Hv as [Hj _].
  apply array_get_Ok. split; [exact Hi|].
  unfold set_segid. simpl. rewrite list_lookup_insert_ne by lia. exact Ha.
Qed.

Lemma ExecProcNode_pending o hp :
  chgParam o = false ->
  ExecProcNode o hp =
    match outer_pending o with
    | [] => (o, hp, None)
    | (p, c) :: rest =>
        (mkPlanState (plan o) (outer_all o) rest false, <[p := c]> hp, Some p)
    end.
Proof. intros E. unfold ExecProcNode. rewrite E. reflexivity. Qed.

(** With the cursor at its initial value the loop drops the Delete rows at
    the head of the stream and returns the first copy of the next row, or
    NULL at the end of the stream. *)
Lemma loop_pulls `{!HeadersOk} rs su dl (pending : list (slotptr * TupleTableSlot)) :
  forall fuel w,
    dl <> [] ->
    (length pending < fuel)%nat ->
    outer_pending (lefttree (node w)) = pending ->
    newTargetIdx (node w) = INIT_IDX ->
    replicated_state rs su dl w (replicated_outputs rs su dl pending) ->
    exists w' slot,
      ExecReshuffle_loop env fuel w = Ok (w', slot)
      /\ call_meets rs su dl (replicated_outputs rs su dl pending) w' slot.
Proof.
  induction pending as [|[p c] rest IH]; intros fuel w Hdl Hfuel Hpend Hk Hst;
    destruct fuel as [|fuel]; simpl in Hfuel; try lia;
    destruct Hst as (Hrs & Hsu & Hdest & Hchg & Hrows & _);
    pose proof (ExecProcNode_pending _ (slots w) Hchg) as Hpull;
    rewrite Hpend in Hpull.
  - eexists _, _. split; [apply (loop_end _ _ _ _ Hk Hpull)|].
    simpl. split; [reflexivity|].
    repeat split; simpl; auto. left. rewrite Hpend. split; [exact Hk|reflexivity].
  - rewrite Hpend in Hrows. apply Forall_cons in Hrows as [Hc Hrest].
    simpl in Hc. simpl replicated_outputs.
    destruct (is_delete su c) eqn:Edel.
    + (* a Delete row *)
      assert (Htag : tagged (plan (lefttree (node w))) c DML_DELETE).
      { rewrite Hsu. destruct Hc as [[Hi|Hd] _]; [|exact Hd].
        rewrite (is_delete_insert _ _ Hi) in Edel. discriminate. }
      rewrite (loop_delete _ _ _ _ _ _ Hk Hpull (lookup_insert_eq _ _ _) Htag).
      simpl. apply IH; simpl; auto; [lia|].
      repeat split; simpl; auto.
    + (* an Insert row *)
      pose proof (routable_insert _ _ _ Hc Edel) as Htag.
      destruct Hc as [Htags [v Hv]].
      destruct dl as [|d0 dl']; [congruence|].
      eexists _, _. split.
      * eapply (loop_insert _ _ _ _ _ _ v d0 Hk Hpull (lookup_insert_eq _ _ _)).
        -- rewrite Hsu. exact Htag.
        -- rewrite Hrs. exact Hv.
        -- rewrite Hdest. reflexivity.
      * simpl. rewrite Hrs, insert_insert_eq. split.
        { eexists. split; [reflexivity|]. simpl. apply lookup_insert_eq. }
        repeat split; simpl; auto.
        rewrite Hdest. destruct dl' as [|d1 dl''].
        -- left. split; [apply next_idx_last; reflexivity|reflexivity].
        -- right. exists 0%nat, p, c, d0.
           rewrite next_idx_more by (simpl; lia).
           repeat split; simpl; auto; try lia;
             [apply lookup_insert_eq|eexists; exact Hv].
Qed.

(** One output call of the replicated branch, from any state between two
    calls. *)
Lemma replicated_call `{!HeadersOk} rs su dl w rem :
  ptype rs = POLICYTYPE_REPLICATED ->
  plan_accepted env su ->
  tupleSegIdx rs <> actionColIdx su ->
  0 <= segindex env < oldSegs rs ->
  segindex env + oldSegs rs < gpsegmentCount env <= INT_MAX ->
  dl <> [] ->
  replicated_state rs su dl w rem ->
  exists w' slot,
    ExecReshuffle env w = Ok (w', slot) /\ call_meets rs su dl rem w' slot.
Proof.
  intros Hpt Ha Hne Hself HN Hdl Hst.
  pose proof Hst as (Hrs & Hsu & Hdest & Hchg & Hrows & Hcur).
  rewrite ExecReshuffle_dispatch by (rewrite ?Hrs, ?Hsu; (assumption || lia)).
  rewrite Hrs, Hpt.
  rewrite int_add_ok by (unfold INT_MIN, INT_MAX in *; lia).
  cbn [mbind result_bind]. rewrite Z_geb_false by lia.
  destruct Hcur as [[Hk ->]|(k & p & c & d & Hk & Hlen & Hsaved & Hslot & Hc & Hnd & ->)].
  - apply loop_pulls; auto. unfold loop_fuel. lia.
  - destruct (lookup_lt_is_Some_2 dl (S k) Hlen) as [d' Hd'].
    rewrite (drop_S _ _ _ Hd'). simpl.
    pose proof (routable_insert _ _ _ Hc Hnd) as Htag.
    pose proof Hc as [_ [v Hv]].
    eexists _, _. split.
    + unfold loop_fuel.
      eapply (loop_saved _ _ k p _ (Int32GetDatum d) d' Hk Hsaved Hslot).
      * rewrite Hsu. apply set_segid_tagged; assumption.
      * rewrite Hrs. eapply set_segid_segcol, Hv.
      * rewrite Hdest. exact Hd'.
    + simpl. rewrite Hrs, set_segid_twice. split.
      { eexists. split; [reflexivity|]. simpl. apply lookup_insert_eq. }
      repeat split; simpl; auto. rewrite Hdest.
      destruct (decide (S (S k) = length dl)) as [Elast|Emore].
      * left. split; [apply next_idx_last; exact Elast|].
        rewrite drop_ge by lia. reflexivity.
      * right. exists (S k), p, c, d'.
        rewrite next_idx_more by lia.
        repeat split; simpl; auto; try lia;
          [apply lookup_insert_eq|eexists; exact Hv].
Qed.

(** Any number of output calls of the replicated branch: the consumer sees
    the owed outputs in order, then NULL for ever. *)
Lemma replicated_run `{!HeadersOk} rs su dl (n : nat) : forall w rem,
  ptype rs = POLICYTYPE_REPLICATED ->
  plan_accepted env su ->
  tupleSegIdx rs <> actionColIdx su ->
  0 <= segindex env < oldSegs rs ->
  segindex env + oldSegs rs < gpsegmentCount env <= INT_MAX ->
  dl <> [] ->
  replicated_state rs su dl w rem ->
  exists w',
    run_calls env n w =
      Ok (take n (Some <$> rem) ++ replicate (n - length rem) None, w')
    /\ replicated_state rs su dl w' (drop n rem).
Proof.
  induction n as [|n IH]; intros w rem Hpt Ha Hne Hself HN Hdl Hst.
  - exists w. rewrite drop_0. split; [reflexivity|exact Hst].
  - destruct (replicated_call rs su dl w rem Hpt Ha Hne Hself HN Hdl Hst)
      as (w1 & slot & Ecall & Hmeets).
    simpl run_calls. rewrite Ecall. simpl.
    destruct rem as [|x rem']; simpl in Hmeets.
    + destruct Hmeets as [-> Hst1].
      destruct (IH w1 [] Hpt Ha Hne Hself HN Hdl Hst1) as (w2 & Erun & Hst2).
      rewrite Erun. simpl. exists w2. rewrite drop_nil in Hst2.
      split; [|exact Hst2].
      rewrite take_nil, Nat.sub_0_r. reflexivity.
    + destruct Hmeets as [(p & -> & Hx) Hst1].
      destruct (IH w1 rem' Hpt Ha Hne Hself HN Hdl Hst1) as (w2 & Erun & Hst2).
      rewrite Erun. simpl. rewrite Hx. exists w2. split; [reflexivity|exact Hst2].
Qed.

(** ** The replicated branch, from setup *)

Lemma ExecInitReshuffle_inv nd outer st :
  ExecInitReshuffle env nd outer = Ok st ->
  init_destList env nd = Ok (destList st)
  /\ ps_plan st = nd /\ lefttree st = outer
  /\ newTargetIdx st = INIT_IDX /\ savedSlot st = None.
Proof.
  unfold ExecInitReshuffle. intros E.
  destruct (init_destList env nd) as [l| | | |]; simpl in E; try discriminate.
  destruct (init_typeoids env nd _) as [ts| | | |]; simpl in E; try discriminate.
  injection E as <-. repeat split.
Qed.

(** An old segment with a new segment to feed starts with a non-empty
    list, its cursor at the initial value and nothing saved. *)
Lemma replicated_from_setup rs outer st hp rnd :
  is_query_dispatcher env = false ->
  0 <= segindex env < oldSegs rs ->
  segindex env + oldSegs rs < gpsegmentCount env ->
  gpsegmentCount env + oldSegs rs <= INT_MAX ->
  chgParam outer = false ->
  Forall (fun pc => routable rs (plan outer) (snd pc)) (outer_pending outer) ->
  ExecInitReshuffle env rs outer = Ok st ->
  destList st <> []
  /\ replicated_state rs (plan outer) (destList st) (mkWorld hp rnd st)
       (replicated_outputs rs (plan outer) (destList st) (outer_pending outer)).
Proof.
  intros Hqd Hself Hfeeds Hmax Hchg Hrows Einit.
  apply ExecInitReshuffle_inv in Einit as (El & Hrs & Hlt & Hk & Hsaved).
  destruct (init_destList_spec rs Hqd ltac:(lia) Hmax) as (l & El' & Hset & _).
  rewrite El in El'. injection El' as <-.
  split.
  - destruct (Hset ltac:(lia)) as [_ Hin].
    assert (Hmem : segindex env + oldSegs rs ∈ destList st)
      by (apply Hin; exists 1; lia).
    intros Enil. rewrite Enil in Hmem. apply elem_of_nil in Hmem as [].
  - unfold replicated_state. simpl. rewrite Hlt.
    repeat (split; [solve [auto]|]). left. split; [exact Hk|reflexivity].
Qed.

Lemma replicated_outputs_filter rs su dl rows :
  replicated_outputs rs su dl rows =
  flat_map (fun pc => map (set_segid (tupleSegIdx rs) (snd pc)) dl)
           (filter (fun pc => is_delete su (snd pc) = false) rows).
Proof.
  unfold replicated_outputs.
  induction rows as [|[p c] rows IH]; [reflexivity|].
  destruct (is_delete su c) eqn:E.
  - rewrite filter_cons_False by (simpl; rewrite E; discriminate).
    simpl. rewrite E. exact IH.
  - rewrite filter_cons_True by (simpl; exact E).
    simpl. rewrite E, IH. reflexivity.
Qed.

(** The copies of a stream of rows, block by block: output [i] is row
    [i / L] with destination [i mod L]. *)
Lemma fan_out_lookup {A B} (f : A -> Z -> B) (dl : list Z) (rows : list A) (i : nat) :
  (i < length rows * length dl)%nat ->
  exists r d,
    rows !! (i / length dl)%nat = Some r
    /\ dl !! (i mod length dl)%nat = Some d
    /\ flat_map (fun r => map (f r) dl) rows !! i = Some (f r d).
Proof.
  revert i. induction rows as [|r rows IH]; intros i Hi; simpl in Hi; [lia|].
  assert (HL : (0 < length dl)%nat) by (destruct dl; simpl in *; lia).
  simpl. destruct (Nat.lt_ge_cases i (length dl)) as [Hlt|Hge].
  - rewrite Nat.div_small, Nat.mod_small by exact Hlt.
    destruct (lookup_lt_is_Some_2 dl i Hlt) as [d Hd].
    exists r, d. split; [reflexivity|]. split; [exact Hd|].
    rewrite lookup_app_l by (rewrite length_map; exact Hlt).
    rewrite list_lookup_fmap, Hd. reflexivity.
  - destruct (IH (i - length dl)%nat ltac:(lia)) as (r' & d & Hr & Hd & Hout).
    assert (Ei : i = (i - length dl + 1 * length dl)%nat) by lia.
    exists r', d. rewrite Ei at 1 2.
    rewrite Nat.div_add, Nat.Div0.mod_add by lia.
    replace ((i - length dl) / length dl + 1)%nat
      with (S ((i - length dl) / length dl)) by lia.
    split; [exact Hr|]. split; [exact Hd|].
    rewrite lookup_app_r by (rewrite length_map; exact Hge).
    rewrite length_map. exact Hout.
Qed.

Lemma fan_out_length {A B} (f : A -> Z -> B) (dl : list Z) (rows : list A) :
  length (flat_map (fun r => map (f r) dl) rows) = (length rows * length dl)%nat.
Proof.
  induction rows as [|r rows IH]; [reflexivity|].
  simpl. rewrite length_app, length_map, IH. reflexivity.
Qed.

(** C1 (amended).  Replicated policy, from setup, on a stream of
    Insert-tagged rows.  DestinationList is not empty, and every pulled row
    is returned once per entry of DestinationList before the next row is
    pulled: output call number [i] (counting from 0) returns row number
    [i / L] of the stream with destination [DestinationList[i mod L]],
    [L] being the length of the list, and once every row has had its [L]
    copies the calls return NULL. *)
Theorem replicated_round_robin `{HOk : !HeadersOk}
    (rs : Reshuffle) (outer : PlanState) (st : ReshuffleState)
    (hp : gmap slotptr TupleTableSlot) (rnd : RandState) (n : nat) :
  is_query_dispatcher env = false ->
  ptype rs = POLICYTYPE_REPLICATED ->
  plan_accepted env (plan outer) ->
  tupleSegIdx rs <> actionColIdx (plan outer) ->
  0 <= segindex env < oldSegs rs ->
  segindex env + oldSegs rs < gpsegmentCount env ->
  gpsegmentCount env + oldSegs rs <= INT_MAX ->
  chgParam outer = false ->
  Forall (fun pc => tagged (plan outer) (snd pc) DML_INSERT
                    /\ exists v, array_get (tts_values (snd pc)) (tupleSegIdx rs - 1) = Ok v)
         (outer_pending outer) ->
  ExecInitReshuffle env rs outer = Ok st ->
  let dl := destList st in
  let L := length dl in
  let rows := outer_pending outer in
  (0 < L)%nat
  /\ exists outs w',
       run_calls env n (mkWorld hp rnd st) = Ok (outs, w')
       /\ length outs = n
       /\ forall i : nat, (i < n)%nat ->
            if decide (i < length rows * L)%nat
            then exists p c d,
                   rows !! (i / L)%nat = Some (p, c)
                   /\ dl !! (i mod L)%nat = Some d
                   /\ outs !! i = Some (Some (set_segid (tupleSegIdx rs) c d))
            else outs !! i = Some None.
Proof.
  intros Hqd Hpt Ha Hne Hself Hfeeds Hmax Hchg Hrows Einit dl L rows.
  assert (Hroutable : Forall (fun pc => routable rs (plan outer) (snd pc)) rows).
  { eapply Forall_impl; [exact Hrows|]. intros pc [Hi Hv]. split; [left|]; assumption. }
  destruct (replicated_from_setup rs outer st hp rnd Hqd Hself Hfeeds Hmax Hchg
              Hroutable Einit) as [Hdl Hst].
  fold dl rows in Hdl, Hst.
  assert (HL : (0 < L)%nat) by (subst L; destruct dl; [congruence|simpl; lia]).
  split; [exact HL|].
  assert (HE : replicated_outputs rs (plan outer) dl rows =
               flat_map (fun pc => map (set_segid (tupleSegIdx rs) (snd pc)) dl) rows).
  { unfold replicated_outputs. clear -Hrows HOk. subst rows.
    induction Hrows as [|pc rows [Hi _] _ IH]; [reflexivity|].
    simpl. rewrite (is_delete_insert _ _ Hi), IH. reflexivity. }
  destruct (replicated_run rs (plan outer) dl n _ _ Hpt Ha Hne Hself
              ltac:(unfold INT_MAX in *; lia) Hdl Hst) as (w' & Erun & _).
  rewrite HE in Erun.
  set (E := flat_map _ rows) in Erun.
  assert (HlenE : length E = (length rows * L)%nat) by apply fan_out_length.
  eexists _, w'. split; [exact Erun|]. split.
  - rewrite length_app, length_take, length_fmap, length_replicate. lia.
  - intros i Hi. destruct (decide (i < length rows * L)%nat) as [Hin|Hout].
    + destruct (fan_out_lookup (fun pc d => set_segid (tupleSegIdx rs) (snd pc) d)
                  dl rows i Hin) as ([p c] & d & Hr & Hd & Hout).
      exists p, c, d. split; [exact Hr|]. split; [exact Hd|].
      rewrite lookup_app_l by (rewrite length_take, length_fmap; lia).
      rewrite lookup_take_lt by exact Hi.
      rewrite list_lookup_fmap.
      replace (E !! i) with (Some (set_segid (tupleSegIdx rs) c d))
        by (symmetry; exact Hout).
      reflexivity.
    + rewrite lookup_app_r by (rewrite length_take, length_fmap; lia).
      rewrite length_take, length_fmap.
      apply lookup_replicate_2. lia.
Qed.

(** C5.  Replicated policy, from setup, on any stream of Insert- and
    Delete-tagged rows.  The consumer sees exactly what it would see had
    the Delete rows not been in the stream: the copies of the remaining
    rows, in the order of the stream, with no NULL before the last of them;
    a call that meets Delete rows goes on pulling within the same call.
    When every row is tagged Delete every call returns NULL. *)
Theorem replicated_drops_deletes `{!HeadersOk}
    (rs : Reshuffle) (outer : PlanState) (st : ReshuffleState)
    (hp : gmap slotptr TupleTableSlot) (rnd : RandState) (n : nat) :
  is_query_dispatcher env = false ->
  ptype rs = POLICYTYPE_REPLICATED ->
  plan_accepted env (plan outer) ->
  tupleSegIdx rs <> actionColIdx (plan outer) ->
  0 <= segindex env < oldSegs rs ->
  segindex env + oldSegs rs < gpsegmentCount env ->
  gpsegmentCount env + oldSegs rs <= INT_MAX ->
  chgParam outer = false ->
  Forall (fun pc => routable rs (plan outer) (snd pc)) (outer_pending outer) ->
  ExecInitReshuffle env rs outer = Ok st ->
  let survivors :=
    filter (fun pc => is_delete (plan outer) (snd pc) = false) (outer_pending outer) in
  let E := flat_map (fun pc => map (set_segid (tupleSegIdx rs) (snd pc)) (destList st))
             survivors in
  exists w',
    run_calls env n (mkWorld hp rnd st) =
      Ok (take n (Some <$> E) ++ replicate (n - length E) None, w')
    /\ (Forall (fun pc => tagged (plan outer) (snd pc) DML_DELETE) (outer_pending outer) ->
        run_calls env n (mkWorld hp rnd st) = Ok (replicate n None, w')).
Proof.
  intros Hqd Hpt Ha Hne Hself Hfeeds Hmax Hchg Hrows Einit survivors E.
  destruct (replicated_from_setup rs outer st hp rnd Hqd Hself Hfeeds Hmax Hchg
              Hrows Einit) as [Hdl Hst].
  destruct (replicated_run rs (plan outer) (destList st) n _ _ Hpt Ha Hne Hself
              ltac:(unfold INT_MAX in *; lia) Hdl Hst) as (w' & Erun & _).
  rewrite replicated_outputs_filter in Erun. fold survivors E in Erun.
  exists w'. split; [exact Erun|].
  intros Hall. rewrite Erun.
  assert (Enil : survivors = []).
  { subst survivors. clear -Hall.
    induction Hall as [|pc rows Hd _ IH]; [reflexivity|].
    rewrite filter_cons_False; [exact IH|].
    rewrite (is_delete_tagged _ _ Hd). discriminate. }
  subst E. rewrite Enil. simpl. rewrite take_nil, Nat.sub_0_r. reflexivity.
Qed.

(** ** Re-scan *)

(** [ExecReScanReshuffle] touches the child only. *)
Lemma ExecReScanReshuffle_node w :
  newTargetIdx (node (ExecReScanReshuffle w)) = newTargetIdx (node w)
  /\ savedSlot (node (ExecReScanReshuffle w)) = savedSlot (node w)
  /\ destList (node (ExecReScanReshuffle w)) = destList (node w)
  /\ slots (ExecReScanReshuffle w) = slots w.
Proof. unfold ExecReScanReshuffle. destruct (negb _); repeat split. Qed.

(** ** Further properties of the output call *)

(** X1.  Replicated policy on an old segment that has no new segment to
    feed ([selfSegmentIndex + O >= N], lines 285-288): every call returns
    NULL and nothing is pulled from the child, whatever the state of the
    node. *)
Theorem old_segment_without_target (w : World) (n : nat) :
  plan_accepted env (plan (lefttree (node w))) ->
  ptype (ps_plan (node w)) = POLICYTYPE_REPLICATED ->
  segindex env < oldSegs (ps_plan (node w)) ->
  INT_MIN <= segindex env + oldSegs (ps_plan (node w)) <= INT_MAX ->
  gpsegmentCount env <= segindex env + oldSegs (ps_plan (node w)) ->
  ExecReshuffle env w = Ok (w, None)
  /\ run_calls env n w = Ok (replicate n None, w).
Proof.
  intros Ha Hpt Hself Hint Hno.
  assert (E : ExecReshuffle env w = Ok (w, None)).
  { rewrite ExecReshuffle_dispatch by assumption. rewrite Hpt.
    rewrite int_add_ok by exact Hint. cbn [mbind result_bind].
    rewrite Z_geb_true by lia. reflexivity. }
  split; [exact E|].
  induction n as [|n IH]; [reflexivity|].
  simpl. rewrite E. simpl. rewrite IH. reflexivity.
Qed.

Lemma list_nth_inv {A} (l : list A) (n : Z) (x : A) :
  list_nth env l n = Ok x -> 0 <= n < list_length l.
Proof.
  unfold list_nth, list_length.
  destruct (Z.leb_spec 0 n) as [Hn|Hn].
  - destruct (l !! Z.to_nat n) as [y|] eqn:E.
    + intros _. apply lookup_lt_Some in E. lia.
    + destruct (USE_ASSERT_CHECKING env); discriminate.
  - destruct (USE_ASSERT_CHECKING env); discriminate.
Qed.

(** The loop leaves the cursor inside the list whenever it returns. *)
Lemma ExecReshuffle_loop_cursor fuel : forall w w' slot,
  ExecReshuffle_loop env fuel w = Ok (w', slot) -> cursor_in_list (node w').
Proof.
  induction fuel as [|fuel IH]; intros w w' slot E; simpl in E; [discriminate|].
  destruct (ExecProcNode (lefttree (node w)) (slots w)) as [[o hp] s] eqn:Ep.
  bind_inv_all; simplify_eq;
    try match goal with
        | Hl : ExecReshuffle_loop _ _ _ = Ok _ |- _ => apply IH in Hl; exact Hl
        end;
    try (left; simpl; apply Z.eqb_eq; assumption);
    match goal with
    | Hn : list_nth _ _ _ = Ok _ |- _ => apply list_nth_inv in Hn; simpl in Hn
    end;
    unfold cursor_in_list; simpl;
    match goal with
    | Hd : slot_deref _ ?s = Ok _ |- _ =>
        apply slot_deref_inv in Hd as (? & Hs & _)
    end;
    match goal with
    | |- context [?i >=? ?l] => destruct (Z.geb_spec i l)
    end;
    first [left; reflexivity
          |right; split; [lia|]; simplify_eq; simpl in *; eauto].
Qed.

(** The partitioned branch never touches the state of the replicated
    fan-out. *)
Lemma ExecReshuffle_partitioned_cursor w w' slot :
  ExecReshuffle_partitioned env w = Ok (w', slot) ->
  newTargetIdx (node w') = newTargetIdx (node w)
  /\ savedSlot (node w') = savedSlot (node w)
  /\ destList (node w') = destList (node w).
Proof.
  unfold ExecReshuffle_partitioned. intros E.
  destruct (ExecProcNode _ _) as [[o hp] s] eqn:Ep.
  destruct s as [p|]; [|simplify_eq; repeat split].
  bind_inv_all; simplify_eq; repeat split.
Qed.

Lemma ExecReshuffle_cursor w w' slot :
  cursor_in_list (node w) ->
  ExecReshuffle env w = Ok (w', slot) -> cursor_in_list (node w').
Proof.
  intros Hc. unfold ExecReshuffle, mbind, result_bind. intros E.
  repeat case_match; simplify_eq; try exact Hc.
  - match goal with
    | Hp : ExecReshuffle_partitioned _ _ = Ok _ |- _ =>
        apply ExecReshuffle_partitioned_cursor in Hp as (E1 & E2 & E3)
    end.
    unfold cursor_in_list in *. rewrite E1, E2, E3. exact Hc.
  - eapply ExecReshuffle_loop_cursor; eassumption.
Qed.

(** A call changes neither the plan nor the destination list. *)
Lemma ExecReshuffle_setup_plain w w' slot :
  ExecReshuffle env w = Ok (w', slot) ->
  ps_plan (node w') = ps_plan (node w) /\ destList (node w') = destList (node w).
Proof.
  unfold ExecReshuffle, mbind, result_bind. intros E.
  repeat case_match; simplify_eq; try (split; reflexivity).
  - match goal with
    | Hp : ExecReshuffle_partitioned _ _ = Ok _ |- _ =>
        pose proof (ExecReshuffle_partitioned_cursor _ _ _ Hp) as (_ & _ & E3);
        unfold ExecReshuffle_partitioned in Hp;
        destruct (ExecProcNode (lefttree (node w)) (slots w)) as [[o hp] s];
        destruct s; [bind_inv_all|]; simplify_eq; split; solve [reflexivity|exact E3]
    end.
  - match goal with
    | Hl : ExecReshuffle_loop _ _ _ = Ok _ |- _ =>
        apply ExecReshuffle_loop_setup in Hl as (E1 & _ & E3 & _)
    end.
    split; assumption.
Qed.

(** The cursor of a list that has entries names one of them. *)
Lemma cursor_in_list_nth (st : ReshuffleState) :
  cursor_in_list st -> destList st <> [] ->
  exists d, list_nth env (destList st) (newTargetIdx st) = Ok d
            /\ d ∈ destList st.
Proof.
  intros Hc Hne.
  assert (Hin : 0 <= newTargetIdx st < list_length (destList st)).
  { destruct Hc as [->|[Hc _]]; [|lia]. unfold INIT_IDX, list_length.
    destruct (destList st); [congruence|]. simpl. lia. }
  unfold list_nth, list_length in *.
  replace (0 <=? newTargetIdx st) with true by (symmetry; apply Z.leb_le; lia).
  destruct (lookup_lt_is_Some_2 (destList st) (Z.to_nat (newTargetIdx st)))
    as [d Hd]; [lia|].
  exists d. rewrite Hd. split; [reflexivity|]. eapply list_elem_of_lookup_2, Hd.
Qed.

(** X2.  In every world an execution goes through (setup, output calls with
    any policy, re-scans), the destination list is the one setup computes
    from the plan and the environment, and the round-robin cursor is either
    at its initial value or strictly inside that list with a slot saved.  On
    a segment of the cluster that passes both tests of the replicated branch
    ([0 <= segindex < O] and [segindex + O < N], no [int] overflow), the
    list has entries, so [list_nth_int(destList, newTargetIdx)] of line 328
    reads inside the list, and what it reads is a new segment
    [segindex + k * O] with [k >= 1].  (On the dispatcher the list is empty
    and nothing is claimed.) *)
Theorem reachable_cursor_in_list (w : World) :
  reachable env w ->
  init_destList env (ps_plan (node w)) = Ok (destList (node w))
  /\ cursor_in_list (node w)
  /\ (is_query_dispatcher env = false ->
      0 <= segindex env < oldSegs (ps_plan (node w)) ->
      segindex env + oldSegs (ps_plan (node w)) < gpsegmentCount env ->
      gpsegmentCount env + oldSegs (ps_plan (node w)) <= INT_MAX ->
      exists d k,
        list_nth env (destList (node w)) (newTargetIdx (node w)) = Ok d
        /\ 1 <= k /\ d = segindex env + k * oldSegs (ps_plan (node w))
        /\ d < gpsegmentCount env).
Proof.
  intros Hreach.
  assert (Hinv : init_destList env (ps_plan (node w)) = Ok (destList (node w))
                 /\ cursor_in_list (node w)).
  { induction Hreach
      as [nd outer st hp rnd E|w w' slot _ [IHl IHc] E|w _ [IHl IHc]].
    - apply ExecInitReshuffle_inv in E as (El & Hrs & _ & Hk & _).
      simpl. rewrite Hrs. split; [exact El|]. left. exact Hk.
    - split.
      + destruct (ExecReshuffle_setup_plain _ _ _ E) as (-> & ->). exact IHl.
      + eapply ExecReshuffle_cursor; eassumption.
    - destruct (ExecReScanReshuffle_node w) as (Ek & Es & Ed & _).
      split.
      + rewrite Ed.
        replace (ps_plan (node (ExecReScanReshuffle w))) with (ps_plan (node w));
          [exact IHl|].
        unfold ExecReScanReshuffle. destruct (negb _); reflexivity.
      + unfold cursor_in_list. rewrite Ek, Es, Ed. exact IHc. }
  destruct Hinv as [Hl Hc]. split; [exact Hl|]. split; [exact Hc|].
  intros Hqd Hself Hfeeds Hmax.
  destruct (init_destList_spec (ps_plan (node w)) Hqd ltac:(lia) Hmax)
    as (l & El & Hold & _).
  rewrite Hl in El. injection El as <-.
  destruct (Hold ltac:(lia)) as [_ Hin].
  assert (Hne : destList (node w) <> []).
  { intros Hnil.
    assert (Hfirst : segindex env + oldSegs (ps_plan (node w)) ∈ destList (node w))
      by (apply Hin; exists 1; lia).
    rewrite Hnil in Hfirst. apply elem_of_nil in Hfirst as []. }
  destruct (cursor_in_list_nth (node w) Hc Hne) as (d & Ed & Hd).
  apply Hin in Hd as (k & Hk & Ek & Hlt).
  exists d, k. repeat split; assumption.
Qed.

(** ** When the loop of the replicated branch returns *)

Ltac diverges_inv H :=
  repeat match type of H with
  | (mbind _ ?m) = Diverges =>
      let E := fresh "E" in
      destruct m eqn:E; simpl in H; try discriminate H
  | (match ?x with (_, _) => _ end) = Diverges =>
      let E := fresh "E" in destruct x eqn:E; simpl in H
  | (if ?b then _ else _) = Diverges =>
      let E := fresh "E" in destruct b eqn:E; simpl in H; try discriminate H
  | (match ?x with Some _ => _ | None => _ end) = Diverges =>
      let E := fresh "E" in destruct x eqn:E; simpl in H; try discriminate H
  | (match ?x with inl _ => _ | inr _ => _ end) = Diverges =>
      let E := fresh "E" in destruct x eqn:E; simpl in H; try discriminate H
  end.

Ltac diverges_inv_all :=
  repeat match goal with
  | H : _ = Diverges |- _ => progress diverges_inv H
  end.

Lemma slot_deref_halts hp slot : slot_deref hp slot <> Diverges.
Proof. unfold slot_deref. repeat case_match; discriminate. Qed.

Lemma array_get_halts {A} (a : list A) i : array_get a i <> Diverges.
Proof. unfold array_get. repeat case_match; discriminate. Qed.

Lemma Assert_halts c : Assert env c <> Diverges.
Proof. unfold Assert. case_match; discriminate. Qed.

Lemma list_nth_halts {A} (l : list A) n : list_nth env l n <> Diverges.
Proof. unfold list_nth. repeat case_match; discriminate. Qed.

Lemma slot_store_halts hp slot idx v : slot_store hp slot idx v <> Diverges.
Proof.
  unfold slot_store, array_set, slot_deref, mbind, result_bind.
  repeat case_match; discriminate.
Qed.

Ltac halts :=
  match goal with
  | Hd : slot_deref _ _ = Diverges |- _ => destruct (slot_deref_halts _ _ Hd)
  | Hd : array_get _ _ = Diverges |- _ => destruct (array_get_halts _ _ Hd)
  | Hd : Assert _ _ = Diverges |- _ => destruct (Assert_halts _ Hd)
  | Hd : list_nth _ _ _ = Diverges |- _ => destruct (list_nth_halts _ _ Hd)
  | Hd : slot_store _ _ _ _ = Diverges |- _ => destruct (slot_store_halts _ _ _ _ Hd)
  end.

Lemma ExecProcNode_rows o hp :
  ExecProcNode o hp =
    match rows_to_come o with
    | [] => (if chgParam o then ExecReScan o else o, hp, None)
    | (p, c) :: rest =>
        (mkPlanState (plan o) (outer_all o) rest false, <[p := c]> hp, Some p)
    end.
Proof. unfold ExecProcNode, rows_to_come. destruct (chgParam o); reflexivity. Qed.

(** With the cursor at its initial value every iteration that does not
    return takes a row from the child, so the loop returns. *)
Lemma loop_pulling_halts fuel : forall w,
  newTargetIdx (node w) = INIT_IDX ->
  (length (rows_to_come (lefttree (node w))) < fuel)%nat ->
  ExecReshuffle_loop env fuel w <> Diverges.
Proof.
  induction fuel as [|fuel IH]; intros w Hk Hfuel E; [lia|].
  simpl in E. rewrite Hk in E. simpl in E.
  rewrite ExecProcNode_rows in E.
  destruct (rows_to_come (lefttree (node w))) as [|[p c] rest] eqn:Er;
    simpl in E; [discriminate|].
  diverges_inv E; try halts.
  apply IH in E; [exact E|exact Hk|]. simpl. unfold rows_to_come. simpl. simpl in Hfuel. lia.
Qed.

(** X3.  The [while(1)] loop of the replicated branch fails to return in
    exactly one state: the cursor is inside the list and the saved slot
    holds a Delete-tagged row.  In that state no number of iterations
    returns; in every other state the loop returns (a row, NULL, or a
    fault) within one iteration more than the child has rows. *)
Theorem loop_returns_unless_saved_delete (w : World) :
  (saved_delete w -> forall fuel, ExecReshuffle_loop env fuel w = Diverges)
  /\ (ExecReshuffle_loop env (loop_fuel w) w = Diverges -> saved_delete w).
Proof.
  split.
  - intros (Hk & p & c & a & Hs & Hc & Hact & Hdel) fuel.
    induction fuel as [|fuel IH]; [reflexivity|].
    cbn [ExecReshuffle_loop].
    replace (newTargetIdx (node w) =? INIT_IDX) with false
      by (symmetry; apply Z.eqb_neq; exact Hk).
    rewrite Hs. simpl. rewrite Hc.
    rewrite (Assert_true (bool_decide _)) by (apply bool_decide_eq_true; eauto).
    simpl. rewrite (slot_deref_Some _ _ _ Hc). simpl. rewrite Hact. simpl.
    rewrite Hdel, Z.eqb_refl, orb_true_r.
    rewrite (Assert_true true) by reflexivity. simpl. exact IH.
  - intros E. destruct (Z.eq_dec (newTargetIdx (node w)) INIT_IDX) as [Hk|Hk].
    + exfalso. revert E. apply loop_pulling_halts; [exact Hk|].
      unfold loop_fuel, rows_to_come. destruct (chgParam _); lia.
    + split; [exact Hk|]. unfold loop_fuel in E. cbn [ExecReshuffle_loop] in E.
      replace (newTargetIdx (node w) =? INIT_IDX) with false in E
        by (symmetry; apply Z.eqb_neq; exact Hk).
      diverges_inv_all; try halts; bind_inv_all; simplify_eq.
      match goal with
      | Hd : slot_deref _ _ = Ok _ |- _ =>
          apply slot_deref_inv in Hd as (q & Hs & Hc)
      end.
      eexists q, _, _. repeat split; try eassumption.
      apply Z.eqb_eq. assumption.
Qed.

(** ** The hash helper and its faults *)

Lemma EvalHashSegID_loop_missing values nulls lc : forall i h,
  key_columns values nulls lc = None ->
  EvalHashSegID_loop values nulls lc i h = Undefined.
Proof.
  induction lc as [|a lc IH]; intros i h; simpl; [discriminate|].
  unfold array_get.
  destruct (Z.leb_spec 1 (to_int16 a)) as [Ha|Ha].
  - replace (0 <=? to_int16 a - 1) with true by (symmetry; apply Z.leb_le; lia).
    destruct (values !! Z.to_nat (to_int16 a - 1)) as [v|]; simpl; [|reflexivity].
    destruct (nulls !! Z.to_nat (to_int16 a - 1)) as [b|]; simpl; [|reflexivity].
    destruct (key_columns values nulls lc) as [ks|] eqn:Ek; simpl; [discriminate|].
    intros _. apply IH. reflexivity.
  - replace (0 <=? to_int16 a - 1) with false by (symmetry; apply Z.leb_gt; lia).
    reflexivity.
Qed.

(** X4.  [EvalHashSegID] (lines 140-163), for a key list that passes its
    assertion (non-empty in an assertion-enabled build): when every entry of
    the key list, converted to [AttrNumber] ([int16]) as line 154 does, names
    a column present in both arrays, it returns the context after the
    positional fold, started at position 1 from the reset context, with the
    reduction converted to [int]; when one does not, the read is outside the
    arrays. *)
Theorem EvalHashSegID_defined values nulls attrs h :
  (USE_ASSERT_CHECKING env = true -> attrs <> []) ->
  EvalHashSegID env values nulls attrs h =
    match key_columns values nulls attrs with
    | Some keys =>
        Ok (spec_fold (cdbhashinit h) 1 keys, to_int32 (spec_hash_reduction h keys))
    | None => Undefined
    end.
Proof.
  intros Hne. unfold EvalHashSegID.
  rewrite (Assert_if (negb _)).
  - simpl. destruct (key_columns values nulls attrs) as [keys|] eqn:Ek.
    + rewrite (EvalHashSegID_loop_spec _ _ _ _ _ _ Ek). reflexivity.
    + rewrite (EvalHashSegID_loop_missing _ _ _ _ _ Ek). reflexivity.
  - intros Hd. rewrite bool_decide_eq_false_2 by (apply Hne, Hd). reflexivity.
Qed.

(** X5.  Hash policy in an assertion-enabled build, in a world reached from
    setup with [0 < O <= N]: a Delete-tagged row whose segment column holds
    the reduction of its key columns under the old segment count passes both
    checks and is returned with the slot exactly as the child produced it;
    that reduction is a segment of [0, O). *)
Theorem hash_delete_consistent `{!HeadersOk} `{!CdbHashOk}
    (w : World) (o' : PlanState) (hp' : gmap slotptr TupleTableSlot)
    (p : slotptr) (c : TupleTableSlot) (a v : Datum)
    (keys : list (Datum * bool)) :
  let reshuffle := ps_plan (node w) in
  let O := oldSegs reshuffle in
  let N := gpsegmentCount env in
  reachable env w ->
  USE_ASSERT_CHECKING env = true ->
  ptype reshuffle = POLICYTYPE_PARTITIONED ->
  policyAttrs reshuffle <> [] ->
  segindex env < O ->
  0 < O <= N -> N <= INT_MAX ->
  ExecProcNode (lefttree (node w)) (slots w) = (o', hp', Some p) ->
  hp' !! p = Some c ->
  array_get (tts_values c) (actionColIdx (plan (lefttree (node w))) - 1) = Ok a ->
  DatumGetInt32 a = DML_DELETE ->
  array_get (tts_values c) (tupleSegIdx reshuffle - 1) = Ok v ->
  key_columns (tts_values c) (tts_isnull c) (policyAttrs reshuffle) = Some keys ->
  exists oh,
    node_oldcdbhash (node w) = Some oh
    /\ 0 <= spec_hash_reduction oh keys < O
    /\ (v = Int32GetDatum (spec_hash_reduction oh keys) ->
        ExecReshuffle env w =
          Ok (mkWorld hp' (rand w)
                (with_oldcdbhash (with_lefttree (node w) o')
                   (spec_fold (cdbhashinit oh) 1 keys)),
              Some p)).
Proof.
  intros reshuffle O N Hreach Hdbg Hpt Hne Hself HO HN Hpull Hc Hact Hdel Hseg Hkeys.
  pose proof (array_get_accepted _ _ _ Hact) as Ha.
  destruct (reachable_old_numsegs w Hreach Hdbg) as (oh & Hoh & Hnum).
  fold reshuffle O in Hnum.
  assert (Hrange : 0 <= spec_hash_reduction oh keys < O).
  { pose proof (reduce_range (spec_fold (cdbhashinit oh) 1 keys)) as Hr.
    rewrite spec_fold_numsegs, numsegs_init, Hnum in Hr. apply Hr. lia. }
  exists oh. split; [exact Hoh|]. split; [exact Hrange|]. intros Hv.
  assert (Hnd : (DML_INSERT =? DML_DELETE) = false)
    by (apply Z.eqb_neq, dml_distinct).
  subst reshuffle. partitioned_pull Hpt Hpull Hc Hact.
  rewrite Hdel, Hnd, Z.eqb_refl, orb_true_r.
  rewrite (Assert_true true) by reflexivity. simpl. rewrite Hdbg.
  rewrite bool_decide_eq_false_2 by exact Hne. simpl.
  rewrite Hseg. simpl. rewrite Hoh. simpl.
  rewrite (EvalHashSegID_spec _ _ _ keys _ Hne Hkeys). simpl.
  rewrite to_int32_id by (unfold INT_MIN, INT_MAX in *; lia).
  rewrite (Assert_true (v =? _)) by (apply Z.eqb_eq; exact Hv). simpl.
  rewrite (slot_deref_Some _ _ _ Hc). simpl. rewrite Hseg. simpl.
  rewrite Hv, datum_int32 by (apply in_int_true; unfold INT_MIN, INT_MAX in *; lia).
  rewrite (Z_geb_false _ (gpsegmentCount env)) by (fold N; lia). reflexivity.
Qed.

(** ** Setup and the key columns *)

Lemma list_nth_outside {A} (l : list A) (n : Z) :
  ~ (1 <= n + 1 <= list_length l) ->
  list_nth env l n = if USE_ASSERT_CHECKING env then AssertFailed else Undefined.
Proof.
  intros Hn. unfold list_nth, list_length in *.
  destruct (Z.leb_spec 0 n) as [H0n|H0n]; [|reflexivity].
  rewrite lookup_ge_None_2 by lia. reflexivity.
Qed.

Lemma init_typeoids_outside (nd : Reshuffle) (lc : list AttrNumber) :
  ~ Forall (fun key => 1 <= to_int16 key <= list_length (targetlist nd)) lc ->
  init_typeoids env nd lc =
    if USE_ASSERT_CHECKING env then AssertFailed else Undefined.
Proof.
  induction lc as [|a lc IH]; intros Hbad.
  - destruct Hbad. constructor.
  - simpl.
    destruct (decide (1 <= to_int16 a <= list_length (targetlist nd))) as [Ha|Ha].
    + destruct (list_nth_ok (targetlist nd) (to_int16 a - 1)) as [t Ht]; [lia|].
      rewrite Ht. simpl. rewrite IH.
      * destruct (USE_ASSERT_CHECKING env); reflexivity.
      * intros Hrest. apply Hbad. constructor; assumption.
    + rewrite list_nth_outside by lia.
      destruct (USE_ASSERT_CHECKING env); reflexivity.
Qed.

(** X6.  Setup on a segment of the cluster (no [int] overflow in the list
    loop) returns a node exactly when every entry of the key list, converted
    to [AttrNumber] ([int16]) as line 429 does, names an entry of the target
    list; otherwise [list_nth] is called outside the list, which is an
    assertion failure in an assertion-enabled build and an unchecked read
    otherwise. *)
Theorem setup_needs_keys_in_targetlist (nd : Reshuffle) (outer : PlanState) :
  is_query_dispatcher env = false ->
  0 <= segindex env < gpsegmentCount env ->
  gpsegmentCount env + oldSegs nd <= INT_MAX ->
  (keys_in_targetlist nd ->
     exists st, ExecInitReshuffle env nd outer = Ok st
                /\ ps_plan st = nd /\ lefttree st = outer
                /\ newTargetIdx st = INIT_IDX /\ savedSlot st = None)
  /\ (~ keys_in_targetlist nd ->
      ExecInitReshuffle env nd outer =
        if USE_ASSERT_CHECKING env then AssertFailed else Undefined).
Proof.
  intros Hqd Hself Hmax.
  destruct (init_destList_spec nd Hqd Hself Hmax) as (l & El & _).
  split.
  - intros Hkeys. destruct (init_typeoids_ok nd _ Hkeys) as [ts Ets].
    eexists. split; [apply (ExecInitReshuffle_ok nd outer l ts El Ets)|].
    repeat split.
  - intros Hbad. unfold ExecInitReshuffle. rewrite El. simpl.
    rewrite init_typeoids_outside by exact Hbad.
    destruct (USE_ASSERT_CHECKING env); reflexivity.
Qed.

(** ** Rows in, rows out, under the partitioned policies *)

Lemma ExecProcNode_rows_after o hp o' hp' slot :
  ExecProcNode o hp = (o', hp', slot) ->
  rows_to_come o' = drop 1 (rows_to_come o)
  /\ (slot = None <-> rows_to_come o = []).
Proof.
  rewrite ExecProcNode_rows.
  destruct (rows_to_come o) as [|[p c] rest] eqn:Er.
  - intros [= <- _ <-]. split; [|tauto].
    unfold rows_to_come in *.
    destruct (chgParam o) eqn:Ec; simpl; [exact Er|rewrite Ec; exact Er].
  - intros [= <- _ <-]. split; [reflexivity|]. split; discriminate.
Qed.

(** One call of the partitioned branch is one pull of the child, and what it
    returns is the slot the child returned, filled. *)
Lemma ExecReshuffle_partitioned_pulls w w' slot :
  ExecReshuffle_partitioned env w = Ok (w', slot) ->
  (exists hp', ExecProcNode (lefttree (node w)) (slots w)
               = (lefttree (node w'), hp', slot))
  /\ (forall p, slot = Some p -> is_Some (slots w' !! p)).
Proof.
  intros E. split.
  - unfold ExecReshuffle_partitioned in E.
    destruct (ExecProcNode _ _) as [[o hp] s] eqn:Ep.
    destruct s as [p|]; [|simplify_eq; eauto].
    bind_inv_all; simplify_eq; eauto.
  - intros p ->.
    destruct (ExecReshuffle_partitioned_row _ _ _ E) as (o' & hp' & c & _ & Hc & Hw).
    destruct Hw as [->|(d & _ & ->)]; [eauto|].
    rewrite lookup_insert_eq. eauto.
Qed.

(** X7.  Partitioned policies on an old segment: when [n] output calls all
    return, they have pulled the child exactly once each; the calls made
    while the child still had rows returned a (filled) slot each, the later
    ones NULL, so there is one output row per input row, Delete rows
    included. *)
Theorem partitioned_one_row_per_call (n : nat) : forall (w w' : World) outs,
  ptype (ps_plan (node w)) = POLICYTYPE_PARTITIONED ->
  segindex env < oldSegs (ps_plan (node w)) ->
  run_calls env n w = Ok (outs, w') ->
  rows_to_come (lefttree (node w')) = drop n (rows_to_come (lefttree (node w)))
  /\ length outs = n
  /\ forall (i : nat) o, outs !! i = Some o ->
       (is_Some o <-> (i < length (rows_to_come (lefttree (node w))))%nat).
Proof.
  induction n as [|n IH]; intros w w' outs Hpt Hself E; simpl in E.
  - injection E as <- <-. rewrite drop_0. split; [reflexivity|].
    split; [reflexivity|]. intros i o Hi. discriminate.
  - destruct (ExecReshuffle env w) as [[w1 slot]| | | |] eqn:E1;
      simpl in E; try discriminate.
    destruct (run_calls env n w1) as [[outs1 w2]| | | |] eqn:E2;
      simpl in E; try discriminate.
    injection E as <- <-.
    destruct (ExecReshuffle_setup_plain _ _ _ E1) as (Hplan & _).
    assert (Ep : ExecReshuffle_partitioned env w = Ok (w1, slot)).
    { revert E1. unfold ExecReshuffle, mbind, result_bind. rewrite Hpt.
      rewrite (Z_geb_false _ _ Hself).
      repeat case_match; intros; simplify_eq; assumption. }
    destruct (ExecReshuffle_partitioned_pulls _ _ _ Ep) as ((hp' & Hpull) & Hfilled).
    destruct (ExecProcNode_rows_after _ _ _ _ _ Hpull) as (Hrows & Hnone).
    destruct (IH w1 w2 outs1) as (IHrows & IHlen & IHout);
      [rewrite Hplan; exact Hpt|rewrite Hplan; exact Hself|exact E2|].
    split; [|split].
    + rewrite IHrows, Hrows, drop_drop. reflexivity.
    + simpl. rewrite IHlen. reflexivity.
    + intros [|i] o Hi; simpl in Hi.
      * injection Hi as <-.
        destruct slot as [p|]; simpl.
        -- split; [intros _|intros _; apply Hfilled; reflexivity].
           destruct (rows_to_come (lefttree (node w))); [|simpl; lia].
           destruct Hnone as [_ Hn]. discriminate (Hn eq_refl).
        -- destruct Hnone as [Hn _]. rewrite (Hn eq_refl). simpl.
           split; [intros []; discriminate|lia].
      * rewrite (IHout i o Hi), Hrows, length_drop. lia.
Qed.

(** ** Re-scan between two rows *)

(** X8.  Replicated policy, on an old segment that feeds new segments, with
    the cursor at its initial value (so between the copies of two rows):
    after [ExecReScanReshuffle] the output calls deliver the copies of every
    non-Delete row of the child's stream from its first row on, whatever
    part of the stream had been consumed before. *)
Theorem rescan_between_rows `{!HeadersOk} (w : World) (n : nat) :
  let rs := ps_plan (node w) in
  let su := plan (lefttree (node w)) in
  let dl := destList (node w) in
  ptype rs = POLICYTYPE_REPLICATED ->
  plan_accepted env su ->
  tupleSegIdx rs <> actionColIdx su ->
  0 <= segindex env < oldSegs rs ->
  segindex env + oldSegs rs < gpsegmentCount env <= INT_MAX ->
  dl <> [] ->
  newTargetIdx (node w) = INIT_IDX ->
  chgParam (lefttree (node w)) = false ->
  Forall (fun pc => routable rs su (snd pc)) (outer_all (lefttree (node w))) ->
  let E := replicated_outputs rs su dl (outer_all (lefttree (node w))) in
  exists w',
    run_calls env n (ExecReScanReshuffle w) =
      Ok (take n (Some <$> E) ++ replicate (n - length E) None, w').
Proof.
  intros rs su dl Hpt Ha Hne Hself HN Hdl Hk Hchg Hrows E.
  assert (Hst : replicated_state rs su dl (ExecReScanReshuffle w) E).
  { unfold ExecReScanReshuffle. rewrite Hchg. simpl.
    unfold replicated_state. simpl.
    repeat (split; [solve [auto]|]). left. split; [exact Hk|reflexivity]. }
  destruct (replicated_run rs su dl n _ _ Hpt Ha Hne Hself HN Hdl Hst)
    as (w' & Erun & _).
  exists w'. exact Erun.
Qed.

(** ** Random routing when the cluster has not grown *)

(** X10.  Random policy in a production build with [O >= N] (the setting
    that [Assert(newSegs > oldSegs)] excludes in an assertion-enabled
    build).  With [O = N] the remainder of line 255 has a zero divisor.
    With [O > N] the Insert row is returned with the destination
    [O + random() % (N - O)], which is at least [O] and so names no segment
    of the cluster. *)
Theorem random_routing_without_growth `{!RandomOk}
    (w : World) (o' : PlanState) (hp' : gmap slotptr TupleTableSlot)
    (p : slotptr) (c : TupleTableSlot) (a v : Datum) :
  let reshuffle := ps_plan (node w) in
  let O := oldSegs reshuffle in
  let N := gpsegmentCount env in
  USE_ASSERT_CHECKING env = false ->
  ptype reshuffle = POLICYTYPE_PARTITIONED ->
  policyAttrs reshuffle = [] ->
  segindex env < O ->
  0 <= N <= O -> O <= INT_MAX ->
  ExecProcNode (lefttree (node w)) (slots w) = (o', hp', Some p) ->
  hp' !! p = Some c ->
  array_get (tts_values c) (actionColIdx (plan (lefttree (node w))) - 1) = Ok a ->
  DatumGetInt32 a = DML_INSERT ->
  array_get (tts_values c) (tupleSegIdx reshuffle - 1) = Ok v ->
  (N = O -> ExecReshuffle env w = Undefined)
  /\ (N < O ->
      let d := O + Z.rem (fst (random (rand w))) (N - O) in
      N <= O <= d /\ d < O + (O - N)
      /\ ExecReshuffle env w =
           Ok (mkWorld
                 (<[p := mkSlot (<[Z.to_nat (tupleSegIdx reshuffle - 1) :=
                                     Int32GetDatum (to_int32 d)]>
                                   (tts_values c)) (tts_isnull c)]> hp')
                 (snd (random (rand w)))
                 (with_lefttree (node w) o'),
               Some p)).
Proof.
  intros reshuffle O N Hprod Hpt Hkeys Hself HN HO Hpull Hc Hact Hins Hseg.
  pose proof (array_get_accepted _ _ _ Hact) as Ha.
  subst reshuffle.
  split; [intros Heq|intros Hlt d];
    partitioned_pull Hpt Hpull Hc Hact;
    rewrite (Assert_production (_ || _)) by exact Hprod; simpl;
    rewrite Hins, Z.eqb_refl, Hkeys; simpl;
    rewrite (Assert_production (_ >? _)) by exact Hprod; simpl;
    destruct (random (rand w)) as [r rnd] eqn:Er;
    unfold int_sub; fold O N;
    rewrite in_int_true by (unfold INT_MIN, INT_MAX in *; lia); simpl;
    unfold long_rem.
  - replace (N - O =? 0) with true by (symmetry; apply Z.eqb_eq; lia).
    reflexivity.
  - replace (N - O =? 0) with false by (symmetry; apply Z.eqb_neq; lia).
    simpl. simpl in d.
    pose proof (random_range (rand w)) as Hr. rewrite Er in Hr. simpl in Hr.
    assert (Hd : 0 <= Z.rem r (N - O) < O - N).
    { replace (N - O) with (- (O - N)) by lia.
      rewrite Z.rem_opp_r by lia. apply Z.rem_bound_pos; lia. }
    split; [subst d; lia|]. split; [subst d; lia|].
    rewrite (slot_store_ok hp' p c _ _ v Hc Hseg). simpl.
    rewrite Hprod. reflexivity.
Qed.

End Properties.

(** ** Who feeds which new segment *)

(** X9.  Over the old segments of one cluster, the destination lists built
    at setup share the new segments out: a new segment [t] of [O, N) is in
    the list of old segment [t mod O], and in the list of no other old
    segment. *)
Theorem every_new_segment_has_one_source (env : Env) (nd : Reshuffle) (t : Z) :
  is_query_dispatcher env = false ->
  0 < oldSegs nd ->
  gpsegmentCount env + oldSegs nd <= INT_MAX ->
  oldSegs nd <= t < gpsegmentCount env ->
  (exists l, init_destList (env_at env (t mod oldSegs nd)) nd = Ok l /\ t ∈ l)
  /\ (forall self l,
        0 <= self < oldSegs nd ->
        init_destList (env_at env self) nd = Ok l ->
        t ∈ l -> self = t mod oldSegs nd).
Proof.
  intros Hqd HO Hmax Ht.
  assert (Hspec : forall self, 0 <= self < oldSegs nd ->
            exists l, init_destList (env_at env self) nd = Ok l
              /\ forall v, v ∈ l <->
                   exists k, 1 <= k /\ v = self + k * oldSegs nd
                             /\ v < gpsegmentCount env).
  { intros self Hself.
    destruct (init_destList_spec (env_at env self) nd) as (l & El & Hset & _);
      simpl; try assumption; try lia.
    exists l. split; [exact El|]. apply Hset. simpl. lia. }
  split.
  - pose proof (Z.mod_pos_bound t (oldSegs nd) HO) as Hm.
    destruct (Hspec _ Hm) as (l & El & Hin).
    exists l. split; [exact El|]. apply Hin.
    exists (t / oldSegs nd). pose proof (Z.div_mod t (oldSegs nd)).
    assert (1 <= t / oldSegs nd) by (apply Z.div_le_lower_bound; lia).
    split; [assumption|]. split; [lia|lia].
  - intros self l Hself El Hmem.
    destruct (Hspec _ Hself) as (l' & El' & Hin).
    rewrite El in El'. injection El' as <-.
    apply Hin in Hmem as (k & Hk & -> & _).
    rewrite Z.mod_add by lia. symmetry. apply Z.mod_small. lia.
Qed.

(** * The properties at the sample instance *)

#[local] Existing Instance Sample.headers.
#[local] Existing Instance Sample.hash.
#[local] Existing Instance Sample.rng.

Lemma sample_headers_ok : @HeadersOk Sample.headers.
Proof.
  split.
  - discriminate.
  - intros x Hx. simpl. apply to_int32_id.
    unfold in_int in Hx. apply andb_prop in Hx as [H1 H2].
    apply Z.leb_le in H1, H2. lia.
Qed.

Lemma sample_hash_ok : @CdbHashOk Sample.hash.
Proof.
  split; simpl; try reflexivity.
  intros [n s]. simpl. intros Hn. apply Z.mod_pos_bound. exact Hn.
Qed.

Lemma sample_rng_ok : @RandomOk Sample.rng.
Proof. split. intros s. simpl. apply Z.mod_pos_bound. lia. Qed.

#[local] Existing Instance sample_headers_ok.
#[local] Existing Instance sample_hash_ok.
#[local] Existing Instance sample_rng_ok.

Lemma new_segment_no_output_witness :
  let w := Sample.world_of
             (Sample.node_of 3 POLICYTYPE_PARTITIONED [1] [] Sample.three_inserts true) in
  run_calls (Sample.env_of 4 true) 5 w = Ok ([None; None; None; None; None], w).
Proof.
  intros w.
  apply (new_segment_no_output (Sample.env_of 4 true) w 5);
    unfold plan_accepted; simpl; lia.
Defined.

Lemma destList_at_setup_witness :
  exists st,
    ExecInitReshuffle (Sample.env_of 0 true)
      (Sample.reshuffle_of 3 POLICYTYPE_REPLICATED [])
      (Sample.child Sample.three_inserts) = Ok st
    /\ destList st = [3; 6].
Proof.
  destruct (destList_at_setup (Sample.env_of 0 true)
              (Sample.reshuffle_of 3 POLICYTYPE_REPLICATED [])
              (Sample.child Sample.three_inserts))
    as (st & E & _ & _ & Hex & _).
  - reflexivity.
  - simpl. lia.
  - unfold INT_MAX. simpl. lia.
  - constructor.
  - exists st. split; [exact E|].
    apply Hex; reflexivity.
Defined.

Lemma hash_routing_witness :
  let env := Sample.env_of 0 true in
  let w := Sample.world_of
             (Sample.node_of 3 POLICYTYPE_PARTITIONED [1] [3; 6] Sample.three_inserts true) in
  exists w', ExecReshuffle env w = Ok (w', Some 1%positive)
             /\ slots w' !! 1%positive = Some (Sample.row 1 10 3).
Proof.
  intros env w.
  pose proof (hash_routing env w
                (mkPlanState Sample.split Sample.three_inserts
                   (tail Sample.three_inserts) false)
                (<[1%positive := Sample.row 1 10 0]> ∅)
                1%positive (Sample.row 1 10 0) 1 0 [(10, false)]) as Hthm.
  cbv zeta in Hthm.
  destruct Hthm as (_ & _ & _ & E).
  - apply (reach_init env (Sample.reshuffle_of 3 POLICYTYPE_PARTITIONED [1])
             (Sample.child Sample.three_inserts)). reflexivity.
  - reflexivity.
  - discriminate.
  - simpl. lia.
  - unfold INT_MAX. simpl. lia.
  - reflexivity.
  - reflexivity.
  - reflexivity.
  - reflexivity.
  - reflexivity.
  - reflexivity.
  - eexists. split; [exact E|]. reflexivity.
Defined.



Lemma partitioned_frame_witness :
  let env := Sample.env_of 0 true in
  let w := Sample.world_of
             (Sample.node_of 3 POLICYTYPE_PARTITIONED [1] [3; 6] Sample.three_inserts true) in
  exists w' c c',
    ExecReshuffle env w = Ok (w', Some 1%positive)
    /\ slots w' !! 1%positive = Some c'
    /\ tts_isnull c' = tts_isnull c
    /\ tts_values c' !! 0%nat = tts_values c !! 0%nat
    /\ tts_values c' !! 1%nat = tts_values c !! 1%nat.
Proof.
  intros env w.
  assert (E : exists w', ExecReshuffle env w = Ok (w', Some 1%positive))
    by (eexists; reflexivity).
  destruct E as [w' E].
  destruct (partitioned_frame env w w' 1%positive eq_refl E)
    as (o' & hp' & c & c' & _ & _ & Hc' & Hnull & _ & Hcols & _ & _).
  exists w', c, c'. split; [exact E|]. split; [exact Hc'|]. split; [exact Hnull|].
  split; apply Hcols; simpl; lia.
Defined.

Lemma consistency_checks_only_with_assertions_witness :
  let w := Sample.world_of
             (Sample.node_of 3 POLICYTYPE_PARTITIONED [1] [3; 6] Sample.delete_insert true) in
  ExecReshuffle (Sample.env_of 0 true) w = AssertFailed.
Proof.
  intros w.
  pose proof (consistency_checks_only_with_assertions (Sample.env_of 0 true) w
                (mkPlanState Sample.split Sample.delete_insert
                   (tail Sample.delete_insert) false)
                (<[1%positive := Sample.row 0 10 2]> ∅)
                1%positive (Sample.row 0 10 2) 0 2 [(10, false)]) as Hthm.
  cbv zeta in Hthm.
  destruct Hthm as [Hdel _].
  - apply (reach_init (Sample.env_of 0 true)
             (Sample.reshuffle_of 3 POLICYTYPE_PARTITIONED [1])
             (Sample.child Sample.delete_insert)). reflexivity.
  - reflexivity.
  - simpl. lia.
  - reflexivity.
  - reflexivity.
  - reflexivity.
  - reflexivity.
  - reflexivity.
  - destruct (Hdel eq_refl) as (_ & Hdbg & _).
    destruct (Hdbg eq_refl) as (oh & Hoh & _ & Hmis & _); [discriminate|].
    injection Hoh as <-. apply Hmis. cbv. discriminate.
Defined.

(** C8, as stated, fails in a production build.  The Delete row sits on
    segment 2 while its key reduces to segment 1 under the old segment count
    3, and it is returned without any error; so is a Delete row of a
    randomly distributed table whose segment column holds 9, outside
    [0, 7). *)
Lemma production_skips_consistency_checks_counterexample :
  spec_hash_reduction (makeCdbHash 3 1 [23]) [(10, false)] = 1
  /\ (exists w',
        ExecReshuffle (Sample.env_of 0 false)
          (Sample.world_of
             (Sample.node_of 3 POLICYTYPE_PARTITIONED [1] [3; 6]
                Sample.delete_insert false))
        = Ok (w', Some 1%positive)
        /\ slots w' !! 1%positive = Some (Sample.row 0 10 2))
  /\ (exists w',
        ExecReshuffle (Sample.env_of 0 false)
          (Sample.world_of
             (Sample.node_of 3 POLICYTYPE_PARTITIONED [] [3; 6]
                Sample.stray_delete false))
        = Ok (w', Some 1%positive)
        /\ slots w' !! 1%positive = Some (Sample.row 0 10 9)).
Proof.
  split; [reflexivity|].
  split; eexists; (split; reflexivity).
Qed.

Lemma setup_accepts_no_growth_and_no_keys_witness :
  exists st,
    ExecInitReshuffle (mkEnv 0 3 false true)
      (Sample.reshuffle_of 7 POLICYTYPE_PARTITIONED [1])
      (Sample.child Sample.three_inserts) = Ok st
    /\ destList st = [].
Proof.
  destruct (proj1 (setup_accepts_no_growth_and_no_keys (mkEnv 0 3 false true))
              (Sample.reshuffle_of 7 POLICYTYPE_PARTITIONED [1])
              (Sample.child Sample.three_inserts))
    as (st & E & _ & Hdl & _).
  - repeat constructor; cbv; discriminate.
  - simpl. lia.
  - unfold INT_MAX. simpl. lia.
  - simpl. lia.
  - exists st. split; [exact E|exact Hdl].
Defined.

(** C7, as stated, fails: with [O = 7 >= N = 3] setup returns a node, and
    so it does for a partitioned policy with an empty key list. *)
Lemma setup_accepts_bad_configuration_counterexample :
  is_Ok (ExecInitReshuffle (mkEnv 0 3 false true)
           (Sample.reshuffle_of 7 POLICYTYPE_PARTITIONED [1])
           (Sample.child Sample.three_inserts)) = true
  /\ is_Ok (ExecInitReshuffle (mkEnv 0 3 false false)
              (Sample.reshuffle_of 7 POLICYTYPE_PARTITIONED [1])
              (Sample.child Sample.three_inserts)) = true
  /\ is_Ok (ExecInitReshuffle (Sample.env_of 0 true)
              (Sample.reshuffle_of 3 POLICYTYPE_PARTITIONED [])
              (Sample.child Sample.three_inserts)) = true.
Proof. repeat split; reflexivity. Qed.

Lemma replicated_round_robin_witness :
  exists outs w',
    run_calls (Sample.env_of 0 true) 6
      (Sample.world_of
         (Sample.node_of 3 POLICYTYPE_REPLICATED [] [3; 6] Sample.three_inserts true))
    = Ok (outs, w')
    /\ outs !! 1%nat = Some (Some (Sample.row 1 10 6))
    /\ outs !! 2%nat = Some (Some (Sample.row 1 11 3)).
Proof.
  pose proof (replicated_round_robin (Sample.env_of 0 true)
                (Sample.reshuffle_of 3 POLICYTYPE_REPLICATED [])
                (Sample.child Sample.three_inserts)
                (Sample.node_of 3 POLICYTYPE_REPLICATED [] [3; 6] Sample.three_inserts true)
                ∅ 0 6) as Hthm.
  cbv zeta in Hthm.
  destruct Hthm as (_ & outs & w' & E & _ & Hall).
  - reflexivity.
  - reflexivity.
  - unfold plan_accepted. simpl. lia.
  - simpl. lia.
  - simpl. lia.
  - simpl. lia.
  - unfold INT_MAX. simpl. lia.
  - reflexivity.
  - unfold Sample.child, Sample.three_inserts. simpl outer_pending.
    repeat (apply List.Forall_cons;
            [split; [eexists; split; reflexivity|eexists; reflexivity]|]).
    apply List.Forall_nil.
  - reflexivity.
  - exists outs, w'. split; [exact E|]. split.
    + specialize (Hall 1%nat ltac:(lia)). simpl in Hall.
      destruct Hall as (p & c & d & [= <- <-] & [= <-] & Hout). exact Hout.
    + specialize (Hall 2%nat ltac:(lia)). simpl in Hall.
      destruct Hall as (p & c & d & [= <- <-] & [= <-] & Hout). exact Hout.
Defined.

(** C1, as stated, fails.  With DestinationList [3;6] and three Insert rows
    in the stream, three output calls return the first row with destination
    3, the first row again with destination 6, and the second row with
    destination 3; the third row has not been pulled yet.  They do not
    return the three rows, one each, with destinations 3, 6, 3. *)
Lemma one_output_per_row_counterexample :
  (exists w',
     run_calls (Sample.env_of 0 true) 3
       (Sample.world_of
          (Sample.node_of 3 POLICYTYPE_REPLICATED [] [3; 6] Sample.three_inserts true))
     = Ok ([Some (Sample.row 1 10 3); Some (Sample.row 1 10 6);
            Some (Sample.row 1 11 3)], w')
     /\ outer_pending (lefttree (node w')) = [(1%positive, Sample.row 1 12 2)])
  /\ ~ (exists w',
          run_calls (Sample.env_of 0 true) 3
            (Sample.world_of
               (Sample.node_of 3 POLICYTYPE_REPLICATED [] [3; 6]
                  Sample.three_inserts true))
          = Ok ([Some (Sample.row 1 10 3); Some (Sample.row 1 11 6);
                 Some (Sample.row 1 12 3)], w')).
Proof.
  assert (Hrun : exists w',
             run_calls (Sample.env_of 0 true) 3
               (Sample.world_of
                  (Sample.node_of 3 POLICYTYPE_REPLICATED [] [3; 6]
                     Sample.three_inserts true))
             = Ok ([Some (Sample.row 1 10 3); Some (Sample.row 1 10 6);
                    Some (Sample.row 1 11 3)], w')
             /\ outer_pending (lefttree (node w')) = [(1%positive, Sample.row 1 12 2)])
    by (eexists; split; reflexivity).
  split; [exact Hrun|].
  destruct Hrun as (w1 & E1 & _). intros [w2 E2].
  rewrite E1 in E2. injection E2 as E2 _. discriminate E2.
Qed.

Lemma replicated_drops_deletes_witness :
  exists w',
    run_calls (Sample.env_of 0 true) 6
      (Sample.world_of
         (Sample.node_of 3 POLICYTYPE_REPLICATED [] [3; 6] Sample.mixed true))
    = Ok ([Some (Sample.row 1 10 3); Some (Sample.row 1 10 6);
           Some (Sample.row 1 12 3); Some (Sample.row 1 12 6); None; None], w').
Proof.
  pose proof (replicated_drops_deletes (Sample.env_of 0 true)
                (Sample.reshuffle_of 3 POLICYTYPE_REPLICATED [])
                (Sample.child Sample.mixed)
                (Sample.node_of 3 POLICYTYPE_REPLICATED [] [3; 6] Sample.mixed true)
                ∅ 0 6) as Hthm.
  cbv zeta in Hthm.
  destruct Hthm as (w' & E & _).
  - reflexivity.
  - reflexivity.
  - unfold plan_accepted. simpl. lia.
  - simpl. lia.
  - simpl. lia.
  - simpl. lia.
  - unfold INT_MAX. simpl. lia.
  - reflexivity.
  - unfold Sample.child, Sample.mixed. simpl outer_pending.
    repeat (apply List.Forall_cons;
            [split;
             [first [left; eexists; split; reflexivity
                    |right; eexists; split; reflexivity]
             |eexists; reflexivity]|]).
    apply List.Forall_nil.
  - reflexivity.
  - exists w'. exact E.
Defined.

(** C9, evaluated.  Segment 0 of a replicated table grown from 3 to 7
    segments, DestinationList [3;6], three Insert rows in the child.  The
    first output call returns the first row with destination 3 and leaves
    the cursor at 1.  [ExecReScanReshuffle] restarts the child and leaves
    the cursor at 1 and the saved slot in place; the next output call pulls
    nothing and returns the first row of the earlier scan with
    DestinationList[1] = 6. *)
Lemma rescan_keeps_cursor_and_saved_row :
  exists w1 w3,
    ExecReshuffle (Sample.env_of 0 true)
      (Sample.world_of
         (Sample.node_of 3 POLICYTYPE_REPLICATED [] [3; 6] Sample.three_inserts true))
    = Ok (w1, Some 1%positive)
    /\ slots w1 !! 1%positive = Some (Sample.row 1 10 3)
    /\ newTargetIdx (node w1) = 1
    /\ outer_pending (lefttree (node w1)) = tail Sample.three_inserts
    /\ newTargetIdx (node (ExecReScanReshuffle w1)) = 1
    /\ savedSlot (node (ExecReScanReshuffle w1)) = Some 1%positive
    /\ destList (node (ExecReScanReshuffle w1)) = [3; 6]
    /\ outer_pending (lefttree (node (ExecReScanReshuffle w1))) = Sample.three_inserts
    /\ ExecReshuffle (Sample.env_of 0 true) (ExecReScanReshuffle w1)
       = Ok (w3, Some 1%positive)
    /\ slots w3 !! 1%positive = Some (Sample.row 1 10 6)
    /\ outer_pending (lefttree (node w3)) = Sample.three_inserts.
Proof. eexists _, _. repeat split; reflexivity. Qed.

Lemma old_segment_without_target_witness :
  run_calls (Sample.env_of 3 true) 4
    (Sample.world_of
       (Sample.node_of 4 POLICYTYPE_REPLICATED [] [] Sample.three_inserts true))
  = Ok ([None; None; None; None],
        Sample.world_of
          (Sample.node_of 4 POLICYTYPE_REPLICATED [] [] Sample.three_inserts true)).
Proof.
  apply (old_segment_without_target (Sample.env_of 3 true)
           (Sample.world_of
              (Sample.node_of 4 POLICYTYPE_REPLICATED [] [] Sample.three_inserts true))
           4).
  - unfold plan_accepted. simpl. lia.
  - reflexivity.
  - simpl. lia.
  - unfold INT_MIN, INT_MAX. simpl. lia.
  - simpl. lia.
Defined.

(** After the first row of segment 0 went to segment 3, the cursor is 1 and
    the next read of the list [3; 6] is inside it. *)
Lemma reachable_cursor_in_list_witness :
  exists w1,
    ExecReshuffle (Sample.env_of 0 true)
      (Sample.world_of
         (Sample.node_of 3 POLICYTYPE_REPLICATED [] [3; 6] Sample.three_inserts true))
    = Ok (w1, Some 1%positive)
    /\ newTargetIdx (node w1) = 1
    /\ cursor_in_list (node w1)
    /\ exists d k,
         list_nth (Sample.env_of 0 true) (destList (node w1)) (newTargetIdx (node w1))
           = Ok d
         /\ 1 <= k /\ d = 0 + k * 3 /\ d < 7.
Proof.
  assert (E : exists w1,
             ExecReshuffle (Sample.env_of 0 true)
               (Sample.world_of
                  (Sample.node_of 3 POLICYTYPE_REPLICATED [] [3; 6]
                     Sample.three_inserts true))
             = Ok (w1, Some 1%positive)
             /\ newTargetIdx (node w1) = 1
             /\ ps_plan (node w1) = Sample.reshuffle_of 3 POLICYTYPE_REPLICATED [])
    by (eexists; repeat split; reflexivity).
  destruct E as (w1 & E & Hk & Hplan).
  destruct (reachable_cursor_in_list (Sample.env_of 0 true) w1) as (_ & Hc & Hread).
  - eapply reach_call; [|exact E].
    apply (reach_init (Sample.env_of 0 true)
             (Sample.reshuffle_of 3 POLICYTYPE_REPLICATED [])
             (Sample.child Sample.three_inserts)).
    reflexivity.
  - exists w1. split; [exact E|]. split; [exact Hk|]. split; [exact Hc|].
    rewrite Hplan in Hread. apply Hread.
    + reflexivity.
    + simpl. lia.
    + simpl. lia.
    + unfold INT_MAX. simpl. lia.
Defined.

Lemma loop_returns_unless_saved_delete_witness :
  ExecReshuffle_loop (Sample.env_of 0 true) 5 Sample.world_saved_delete = Diverges.
Proof.
  apply (proj1 (loop_returns_unless_saved_delete (Sample.env_of 0 true)
                  Sample.world_saved_delete)).
  split; [discriminate|].
  exists 1%positive, (Sample.row 0 10 0), 0. repeat split; reflexivity.
Defined.

(** The key entry 65537 is attribute number 1 as an [AttrNumber]: column 1
    is hashed. *)
Lemma EvalHashSegID_defined_witness :
  EvalHashSegID (Sample.env_of 0 true) [10; 1; 0] [false; false; false] [65537]
    ((7, 5) : @CdbHash Sample.hash)
  = Ok (((7, 10) : @CdbHash Sample.hash), 3).
Proof.
  apply (EvalHashSegID_defined (Sample.env_of 0 true)
           [10; 1; 0] [false; false; false] [65537] ((7, 5) : @CdbHash Sample.hash)).
  intros _. discriminate.
Defined.

Lemma hash_delete_consistent_witness :
  exists w',
    ExecReshuffle (Sample.env_of 0 true)
      (Sample.world_of
         (Sample.node_of 3 POLICYTYPE_PARTITIONED [1] [3; 6]
            Sample.consistent_delete true))
    = Ok (w', Some 1%positive)
    /\ slots w' !! 1%positive = Some (Sample.row 0 10 1).
Proof.
  pose proof (hash_delete_consistent (Sample.env_of 0 true)
                (Sample.world_of
                   (Sample.node_of 3 POLICYTYPE_PARTITIONED [1] [3; 6]
                      Sample.consistent_delete true))
                (mkPlanState Sample.split Sample.consistent_delete [] false)
                (<[1%positive := Sample.row 0 10 1]> ∅)
                1%positive (Sample.row 0 10 1) 0 1 [(10, false)]) as Hthm.
  cbv zeta in Hthm.
  destruct Hthm as (oh & Hoh & _ & Hcall).
  - apply (reach_init (Sample.env_of 0 true)
             (Sample.reshuffle_of 3 POLICYTYPE_PARTITIONED [1])
             (Sample.child Sample.consistent_delete)). reflexivity.
  - reflexivity.
  - reflexivity.
  - discriminate.
  - simpl. lia.
  - simpl. lia.
  - unfold INT_MAX. simpl. lia.
  - reflexivity.
  - reflexivity.
  - reflexivity.
  - reflexivity.
  - reflexivity.
  - reflexivity.
  - injection Hoh as <-. eexists. split; [apply Hcall; reflexivity|reflexivity].
Defined.

(** The key entry 5 is outside the target list of three entries. *)
Lemma setup_needs_keys_in_targetlist_witness :
  ExecInitReshuffle (Sample.env_of 0 true)
    (Sample.reshuffle_of 3 POLICYTYPE_PARTITIONED [5])
    (Sample.child Sample.three_inserts)
  = AssertFailed.
Proof.
  apply (setup_needs_keys_in_targetlist (Sample.env_of 0 true)
           (Sample.reshuffle_of 3 POLICYTYPE_PARTITIONED [5])
           (Sample.child Sample.three_inserts)).
  - reflexivity.
  - simpl. lia.
  - unfold INT_MAX. simpl. lia.
  - intros Hkeys. apply Forall_cons in Hkeys as [[_ Hk] _].
    vm_compute in Hk. apply Hk. reflexivity.
Defined.

Lemma partitioned_one_row_per_call_witness :
  exists outs w',
    run_calls (Sample.env_of 0 false) 4
      (Sample.world_of
         (Sample.node_of 3 POLICYTYPE_PARTITIONED [1] [3; 6] Sample.delete_insert false))
    = Ok (outs, w')
    /\ length outs = 4%nat
    /\ rows_to_come (lefttree (node w')) = [].
Proof.
  assert (E : exists outs w',
             run_calls (Sample.env_of 0 false) 4
               (Sample.world_of
                  (Sample.node_of 3 POLICYTYPE_PARTITIONED [1] [3; 6]
                     Sample.delete_insert false))
             = Ok (outs, w'))
    by (eexists _, _; reflexivity).
  destruct E as (outs & w' & E).
  destruct (partitioned_one_row_per_call (Sample.env_of 0 false) 4
              (Sample.world_of
                 (Sample.node_of 3 POLICYTYPE_PARTITIONED [1] [3; 6]
                    Sample.delete_insert false))
              w' outs eq_refl ltac:(simpl; lia) E) as (Hrows & Hlen & _).
  exists outs, w'. split; [exact E|]. split; [exact Hlen|exact Hrows].
Defined.

Lemma rescan_between_rows_witness :
  exists w',
    run_calls (Sample.env_of 0 true) 2
      (ExecReScanReshuffle Sample.world_after_first_row)
    = Ok ([Some (Sample.row 1 10 3); Some (Sample.row 1 10 6)], w').
Proof.
  pose proof (rescan_between_rows (Sample.env_of 0 true)
                Sample.world_after_first_row 2) as Hthm.
  cbv zeta in Hthm.
  destruct Hthm as (w' & E).
  - reflexivity.
  - unfold plan_accepted. simpl. lia.
  - simpl. lia.
  - simpl. lia.
  - unfold INT_MAX. simpl. lia.
  - discriminate.
  - reflexivity.
  - reflexivity.
  - unfold Sample.world_after_first_row, Sample.three_inserts. simpl.
    repeat (apply List.Forall_cons;
            [split; [left; eexists; split; reflexivity|eexists; reflexivity]|]).
    apply List.Forall_nil.
  - exists w'. exact E.
Defined.

Lemma every_new_segment_has_one_source_witness :
  exists l,
    init_destList (env_at (Sample.env_of 5 true) 0)
      (Sample.reshuffle_of 3 POLICYTYPE_REPLICATED []) = Ok l
    /\ 6 ∈ l.
Proof.
  apply (proj1 (every_new_segment_has_one_source (Sample.env_of 5 true)
                  (Sample.reshuffle_of 3 POLICYTYPE_REPLICATED []) 6
                  eq_refl ltac:(simpl; lia)
                  ltac:(unfold INT_MAX; simpl; lia) ltac:(simpl; lia))).
Defined.

Lemma random_routing_without_growth_witness :
  exists w',
    ExecReshuffle (Sample.env_of 0 false)
      (mkWorld ∅ 5
         (Sample.node_of 9 POLICYTYPE_PARTITIONED [] [] Sample.three_inserts false))
    = Ok (w', Some 1%positive)
    /\ slots w' !! 1%positive = Some (Sample.row 1 10 10).
Proof.
  pose proof (random_routing_without_growth (Sample.env_of 0 false)
                (mkWorld ∅ 5
                   (Sample.node_of 9 POLICYTYPE_PARTITIONED [] []
                      Sample.three_inserts false))
                (mkPlanState Sample.split Sample.three_inserts
                   (tail Sample.three_inserts) false)
                (<[1%positive := Sample.row 1 10 0]> ∅)
                1%positive (Sample.row 1 10 0) 1 0) as Hthm.
  cbv zeta in Hthm.
  destruct Hthm as [_ Hlt].
  - reflexivity.
  - reflexivity.
  - reflexivity.
  - simpl. lia.
  - simpl. lia.
  - unfold INT_MAX. simpl. lia.
  - reflexivity.
  - reflexivity.
  - reflexivity.
  - reflexivity.
  - reflexivity.
  - destruct Hlt as (_ & _ & E); [simpl; lia|].
    eexists. split; [exact E|]. reflexivity.
Defined.
